(** * HealthKit-Analysis: process_workout_health_data.py

    A shallow embedding of the workout / health-sample correlation script
    and the properties of its core: timestamp normalisation, workout window
    extraction, the interval join with its VO2Max gate, and the midpoint
    partitioner.

    Text is [string]; a Python exception is a value of [exn] carried in the
    left summand of [result]; a pandas DataFrame is the list of its rows in
    positional order.  Instants are integers (nanoseconds since the Unix
    epoch, the unit pandas stores). *)

From Stdlib Require Import ZArith List String Ascii Bool Lia.
From Stdlib Require Import Sorting.Permutation Sorting.Sorted.
Import ListNotations.

Local Open Scope string_scope.
Local Open Scope list_scope.
Local Open Scope Z_scope.

(* ================================================================= *)
(** ** Exceptions *)

(** The exceptions the script can die with.  None of them is caught. *)
Inductive exn : Type :=
| ValueError_strptime          (* time data does not match the format *)
| ValueError_int               (* invalid literal for int() *)
| ValueError_timezone          (* offset not strictly between -24h and 24h *)
| ValueError_fromisoformat     (* invalid isoformat string *)
| ValueError_no_objects_to_concatenate   (* pd.concat of an empty list *)
| TypeError_invalid_comparison (* ordering a datetime column against None *)
| ValueError_length_mismatch   (* a column assigned from a list of another length *)
| IndexError_out_of_bounds.    (* str[0] of the empty string, iloc[0] of an empty frame *)

Definition result (A : Type) : Type := (exn + A)%type.

Definition Ok {A} (a : A) : result A := inr a.
Definition Raise {A} (e : exn) : result A := inl e.

Definition bind {A B} (m : result A) (k : A -> result B) : result B :=
  match m with
  | inl e => inl e
  | inr a => k a
  end.

Notation "x <- m ;; k" := (bind m (fun x => k))
  (at level 61, m at next level, right associativity).

Fixpoint mapM {A B} (f : A -> result B) (l : list A) : result (list B) :=
  match l with
  | [] => Ok []
  | a :: l' => b <- f a ;; bs <- mapM f l' ;; Ok (b :: bs)
  end.

(* ================================================================= *)
(** ** Python strings *)

Module Py.

Definition chars (s : string) : list ascii := list_ascii_of_string s.
Definition str (l : list ascii) : string := string_of_list_ascii l.

Definition len (s : string) : nat := String.length s.

(** [s[:-k]] *)
Definition drop_last (k : nat) (s : string) : string :=
  str (firstn (len s - k) (chars s)).

(** [s[-k:]] *)
Definition take_last (k : nat) (s : string) : string :=
  str (skipn (len s - k) (chars s)).

(** [s[i:j]] for [0 <= i <= j] *)
Definition slice (i j : nat) (s : string) : string :=
  str (firstn (j - i) (skipn i (chars s))).

(** [s[0]] *)
Definition first_char (s : string) : result ascii :=
  match s with
  | EmptyString => Raise IndexError_out_of_bounds
  | String c _ => Ok c
  end.

Fixpoint lstrip_char (c : ascii) (l : list ascii) : list ascii :=
  match l with
  | x :: l' => if Ascii.eqb x c then lstrip_char c l' else l
  | [] => []
  end.

(** [s.rstrip(c)] for a one-character argument *)
Definition rstrip_char (c : ascii) (s : string) : string :=
  str (rev (lstrip_char c (rev (chars s)))).

(** [s.endswith(suffix)] *)
Definition endswith (s suffix : string) : bool :=
  String.eqb (take_last (len suffix) s) suffix && (len suffix <=? len s)%nat.

Definition digit (c : ascii) : option Z :=
  let n := Z.of_nat (nat_of_ascii c) in
  if (48 <=? n) && (n <=? 57) then Some (n - 48) else None.

Definition is_digit (c : ascii) : bool :=
  match digit c with Some _ => true | None => false end.

(** White space as [str.strip] and the regex class [\s] see it, on the
    code points below 256. *)
Definition is_space (c : ascii) : bool :=
  let n := nat_of_ascii c in
  ((9 <=? n) && (n <=? 13) || (28 <=? n) && (n <=? 32)
   || (n =? 133) || (n =? 160))%nat.

Fixpoint lstrip_space (l : list ascii) : list ascii :=
  match l with
  | x :: l' => if is_space x then lstrip_space l' else l
  | [] => []
  end.

Definition strip (l : list ascii) : list ascii :=
  rev (lstrip_space (rev (lstrip_space l))).

(** The digits of an [int] literal, most significant first; a single
    underscore may sit between two digits.  [pend] is true right after an
    underscore, [acc] is the value read so far. *)
Fixpoint int_digits (pend : bool) (acc : Z) (l : list ascii) : option Z :=
  match l with
  | [] => if pend then None else Some acc
  | c :: l' =>
      match digit c with
      | Some d => int_digits false (10 * acc + d) l'
      | None =>
          if Ascii.eqb c "_"%char && negb pend
          then int_digits true acc l'
          else None
      end
  end.

Definition int_unsigned (l : list ascii) : option Z :=
  match l with
  | c :: _ => if is_digit c then int_digits false 0 l else None
  | [] => None
  end.

(** [int(s)] in base ten *)
Definition int (s : string) : result Z :=
  let unsigned l :=
    match int_unsigned l with
    | Some n => Ok n
    | None => Raise ValueError_int
    end in
  match strip (chars s) with
  | c :: l' =>
      if Ascii.eqb c "-"%char then n <- unsigned l' ;; Ok (- n)
      else if Ascii.eqb c "+"%char then unsigned l'
      else unsigned (c :: l')
  | [] => Raise ValueError_int
  end.

End Py.

(* ================================================================= *)
(** ** datetime *)

(** A [datetime.datetime]: the wall-clock fields and the UTC offset of its
    [tzinfo] in minutes ([None] for a naive value). *)
Record datetime : Type := mk_datetime {
  year : Z; month : Z; day : Z;
  hour : Z; minute : Z; second : Z; microsecond : Z;
  tzinfo : option Z
}.

Definition is_leap (y : Z) : bool :=
  (y mod 4 =? 0) && (negb (y mod 100 =? 0) || (y mod 400 =? 0)).

Definition days_in_month (y m : Z) : Z :=
  if m =? 2 then (if is_leap y then 29 else 28)
  else if (m =? 4) || (m =? 6) || (m =? 9) || (m =? 11) then 30
  else 31.

(** The range checks of the [datetime] constructor. *)
Definition check_fields (y mo d h mi s us : Z) : bool :=
  (1 <=? y) && (y <=? 9999) && (1 <=? mo) && (mo <=? 12)
  && (1 <=? d) && (d <=? days_in_month y mo)
  && (0 <=? h) && (h <=? 23) && (0 <=? mi) && (mi <=? 59)
  && (0 <=? s) && (s <=? 59) && (0 <=? us) && (us <=? 999999).

(** [dt.replace(tzinfo=tz)] *)
Definition replace_tzinfo (dt : datetime) (tz : option Z) : datetime :=
  mk_datetime (year dt) (month dt) (day dt)
              (hour dt) (minute dt) (second dt) (microsecond dt) tz.

(** [timezone(timedelta(minutes=m))] *)
Definition timezone_minutes (m : Z) : result Z :=
  if (-1440 <? m) && (m <? 1440) then Ok m else Raise ValueError_timezone.

(** Days before January 1st of year [y], and before the first of month
    [m] in year [y]; [ymd2ord] is the proleptic Gregorian ordinal, day 1
    being 0001-01-01. *)
Definition days_before_year (y : Z) : Z :=
  let y' := y - 1 in y' * 365 + y' / 4 - y' / 100 + y' / 400.

Fixpoint days_before_month_aux (y : Z) (m : nat) : Z :=
  match m with
  | O => 0
  | S m' => days_before_month_aux y m' + days_in_month y (Z.of_nat m)
  end.

Definition days_before_month (y m : Z) : Z :=
  days_before_month_aux y (Z.to_nat (m - 1)).

Definition ymd2ord (y m d : Z) : Z :=
  days_before_year y + days_before_month y m + d.

Definition utc_pytz : option Z := Some 0.

(* ================================================================= *)
(** ** [datetime.strptime(s, '%Y-%m-%d %H:%M:%S')] *)

(** [strptime] turns the format into one regular expression,
    [(\d\d\d\d)-(1[0-2]|0[1-9]|[1-9])-(3[0-1]|[1-2]\d|0[1-9]|[1-9]| [1-9])\s+(2[0-3]|[0-1]\d|\d):([0-5]\d|\d):(6[0-1]|[0-5]\d|\d)],
    which must consume the whole string.  Every group is followed by a
    character that is not a digit (or by the end), so taking the first
    alternative that fits never has to be revised; the readers below do
    exactly that and hand back the rest of the input. *)
Module Strptime.

Definition reader : Type := list ascii -> option (Z * list ascii).

(** A group whose alternatives are two-digit forms accepted by [two] and,
    after them, one-digit forms accepted by [one]. *)
Definition group (two : Z -> Z -> bool) (one : Z -> bool) : reader :=
  fun l =>
    let single :=
      match l with
      | c :: r =>
          match Py.digit c with
          | Some d => if one d then Some (d, r) else None
          | None => None
          end
      | [] => None
      end in
    match l with
    | c1 :: c2 :: r =>
        match Py.digit c1, Py.digit c2 with
        | Some d1, Some d2 => if two d1 d2 then Some (10 * d1 + d2, r) else single
        | _, _ => single
        end
    | _ => single
    end.

Definition re_Y : reader :=
  fun l =>
    match l with
    | a :: b :: c :: d :: r =>
        match Py.digit a, Py.digit b, Py.digit c, Py.digit d with
        | Some a, Some b, Some c, Some d =>
            Some (1000 * a + 100 * b + 10 * c + d, r)
        | _, _, _, _ => None
        end
    | _ => None
    end.

Definition re_m : reader :=
  group (fun a b => (a =? 1) && (b <=? 2) || (a =? 0) && (1 <=? b))
        (fun a => 1 <=? a).

Definition re_d : reader :=
  fun l =>
    match group (fun a b => (a =? 3) && (b <=? 1) || (1 <=? a) && (a <=? 2)
                            || (a =? 0) && (1 <=? b))
                (fun a => 1 <=? a) l with
    | Some v => Some v
    | None =>
        match l with
        | sp :: c :: r =>
            if Ascii.eqb sp " "%char then
              match Py.digit c with
              | Some d => if 1 <=? d then Some (d, r) else None
              | None => None
              end
            else None
        | _ => None
        end
    end.

Definition re_H : reader :=
  group (fun a b => (a =? 2) && (b <=? 3) || (a <=? 1)) (fun _ => true).

Definition re_M : reader :=
  group (fun a _ => a <=? 5) (fun _ => true).

Definition re_S : reader :=
  group (fun a b => (a =? 6) && (b <=? 1) || (a <=? 5)) (fun _ => true).

Definition lit (c : ascii) (l : list ascii) : option (list ascii) :=
  match l with
  | x :: r => if Ascii.eqb x c then Some r else None
  | [] => None
  end.

(** [\s+] *)
Definition spaces (l : list ascii) : option (list ascii) :=
  match l with
  | x :: r => if Py.is_space x then Some (Py.lstrip_space r) else None
  | [] => None
  end.

Definition obind {A B} (m : option A) (k : A -> option B) : option B :=
  match m with Some a => k a | None => None end.

Definition fields (l : list ascii) : option (Z * Z * Z * Z * Z * Z) :=
  obind (re_Y l) (fun '(y, l) =>
  obind (lit "-" l) (fun l =>
  obind (re_m l) (fun '(mo, l) =>
  obind (lit "-" l) (fun l =>
  obind (re_d l) (fun '(d, l) =>
  obind (spaces l) (fun l =>
  obind (re_H l) (fun '(h, l) =>
  obind (lit ":" l) (fun l =>
  obind (re_M l) (fun '(mi, l) =>
  obind (lit ":" l) (fun l =>
  obind (re_S l) (fun '(s, l) =>
  match l with
  | [] => Some (y, mo, d, h, mi, s)
  | _ :: _ => None
  end))))))))))).

(** The naive [datetime] read from [s], or [ValueError]. *)
Definition strptime (s : string) : result datetime :=
  match fields (Py.chars s) with
  | Some (y, mo, d, h, mi, sec) =>
      if check_fields y mo d h mi sec 0
      then Ok (mk_datetime y mo d h mi sec 0 None)
      else Raise ValueError_strptime
  | None => Raise ValueError_strptime
  end.

End Strptime.

(* ================================================================= *)
(** ** Encoding B: [_parse_date_with_offset] *)

Definition _parse_date_with_offset (date_str : string) : result datetime :=
  let dt_str := Py.drop_last 6 date_str in
  let offset_str := Py.take_last 5 date_str in
  dt <- Strptime.strptime dt_str ;;
  hh <- Py.int (Py.slice 1 3 offset_str) ;;
  mm <- Py.int (Py.slice 3 5 offset_str) ;;
  let offset_minutes := hh * 60 + mm in
  sign <- Py.first_char offset_str ;;
  let offset_minutes :=
    if Ascii.eqb sign "-"%char then - offset_minutes else offset_minutes in
  tz <- timezone_minutes offset_minutes ;;
  Ok (replace_tzinfo dt (Some tz)).


(* ================================================================= *)
(** ** Instants *)

(** What pandas keeps of a timezone-aware datetime: the instant, in
    nanoseconds since 1970-01-01T00:00:00 UTC, and the UTC offset (in
    minutes) it is displayed at.  Ordering and equality of column values
    look at [ns] only. *)
Record Timestamp : Type := mk_Timestamp { ns : Z; tz : option Z }.

(** [date(1970, 1, 1).toordinal()] *)
Definition epoch_ordinal : Z := 719163.

Definition utcoffset (dt : datetime) : Z :=
  match tzinfo dt with Some m => m | None => 0 end.

Definition Timestamp_of_datetime (dt : datetime) : Timestamp :=
  let days := ymd2ord (year dt) (month dt) (day dt) - epoch_ordinal in
  let minutes := (days * 24 + hour dt) * 60 + minute dt - utcoffset dt in
  let micros := (minutes * 60 + second dt) * 1000000 + microsecond dt in
  mk_Timestamp (micros * 1000) (tzinfo dt).

Definition tz_eqb (a b : option Z) : bool :=
  match a, b with
  | Some x, Some y => x =? y
  | None, None => true
  | _, _ => false
  end.

(** The dtype pandas infers for a column of timezone-aware datetimes: one
    shared offset gives [datetime64[ns, tz]]; an empty column or mixed
    offsets stay a column of Python objects. *)
Inductive dtype : Type := datetime64_tz | object.

Definition column_dtype (col : list Timestamp) : dtype :=
  match col with
  | [] => object
  | t :: col' =>
      if forallb (fun u => tz_eqb (tz u) (tz t)) col' then datetime64_tz
      else object
  end.

Inductive cmp_op : Type := GE | LE.

Definition cmp_ns (op : cmp_op) (a b : Z) : bool :=
  match op with GE => b <=? a | LE => a <=? b end.

(** [col >= bound] and [col <= bound] for a scalar [bound].  Against
    [None] a [datetime64] column refuses the comparison, an object column
    answers [False] everywhere. *)
Definition compare_column (op : cmp_op) (col : list Timestamp)
    (bound : option datetime) : result (list bool) :=
  match bound with
  | Some b => Ok (map (fun t => cmp_ns op (ns t) (ns (Timestamp_of_datetime b))) col)
  | None =>
      match column_dtype col with
      | datetime64_tz => Raise TypeError_invalid_comparison
      | object => Ok (map (fun _ => false) col)
      end
  end.

(** [df[mask]] *)
Fixpoint boolean_index {A} (df : list A) (mask : list bool) : list A :=
  match df, mask with
  | r :: df', b :: mask' =>
      if b then r :: boolean_index df' mask' else boolean_index df' mask'
  | _, _ => []
  end.

(** [mask1 & mask2] *)
Fixpoint mask_and (m1 m2 : list bool) : list bool :=
  match m1, m2 with
  | a :: m1', b :: m2' => (a && b) :: mask_and m1' m2'
  | _, _ => []
  end.

(** [Series.unique()]: the distinct values in order of first appearance. *)
Fixpoint unique_from (seen l : list string) : list string :=
  match l with
  | [] => []
  | x :: l' =>
      if existsb (String.eqb x) seen then unique_from seen l'
      else x :: unique_from (x :: seen) l'
  end.

Definition unique (l : list string) : list string := unique_from [] l.

(** [x in values] *)
Definition contains (x : string) (values : list string) : bool :=
  existsb (String.eqb x) values.

(** [pd.concat(frames)] *)
Definition pd_concat {A} (frames : list (list A)) : result (list A) :=
  match frames with
  | [] => Raise ValueError_no_objects_to_concatenate
  | _ :: _ => Ok (List.concat frames)
  end.

(** A Python [dict] with string keys, in insertion order. *)
Fixpoint dict_set {V} (k : string) (v : V) (d : list (string * V))
  : list (string * V) :=
  match d with
  | [] => [(k, v)]
  | (k', v') :: d' =>
      if String.eqb k' k then (k, v) :: d' else (k', v') :: dict_set k v d'
  end.

(* ================================================================= *)
(** ** Inputs *)

(** A parsed track file: its [trkseg] elements, each the list of its
    [trkpt] elements, each with the text of its [time] child if it has
    one. *)
Definition gpx_file : Type := list (list (option string)).

(** A directory listing: file names with the track each file holds. *)
Definition routes_dir : Type := list (string * gpx_file).

(** One line of the health CSV as [read_csv] hands it over: the four
    columns the script touches, as text, and the cells of all others. *)
Record csv_record : Type := mk_csv_record {
  csv_type : string;
  csv_value : string;
  csv_startDate : string;
  csv_endDate : string;
  csv_others : list string
}.

(** The bounds recorded for one workout. *)
Record workout_times : Type := mk_workout_times {
  wt_startDate : option datetime;
  wt_endDate : option datetime
}.

(* ================================================================= *)
(** ** The script *)

Section Script.

(** Two library readers are left open, since their grammars vary with the
    library version and no property below depends on them:
    [to_numeric] is [pd.to_numeric(errors='coerce')] on one cell followed
    by the [isna] test, so [None] stands for a cell that ends up NaN;
    [fromisoformat] is [datetime.fromisoformat]. *)
Context {number : Type}.
Variable to_numeric : string -> option number.
Variable fromisoformat : string -> result datetime.

(** A row of the health table once prepared.  [index] is the label
    [read_csv] gave the line; the last three columns are absent ([None])
    until the script assigns them. *)
Record row : Type := mk_row {
  index : nat;
  type : string;
  value : number;
  startDate : Timestamp;
  endDate : Timestamp;
  others : list string;
  workout_date : option string;
  midStartDate : option Timestamp;
  midEndDate : option Timestamp
}.

Definition set_workout_date (wd : string) (r : row) : row :=
  mk_row (index r) (type r) (value r) (startDate r) (endDate r) (others r)
         (Some wd) (midStartDate r) (midEndDate r).

Definition set_midStartDate (v : option Timestamp) (r : row) : row :=
  mk_row (index r) (type r) (value r) (startDate r) (endDate r) (others r)
         (workout_date r) v (midEndDate r).

Definition set_midEndDate (v : option Timestamp) (r : row) : row :=
  mk_row (index r) (type r) (value r) (startDate r) (endDate r) (others r)
         (workout_date r) (midStartDate r) v.

(** [df[cn] = values] for a Python list [values]. *)
Fixpoint assign_list (set : option Timestamp -> row -> row)
    (df : list row) (values : list (option Timestamp)) : result (list row) :=
  match df, values with
  | [], [] => Ok []
  | r :: df', v :: values' =>
      rest <- assign_list set df' values' ;; Ok (set v r :: rest)
  | _, _ => Raise ValueError_length_mismatch
  end.

(** *** Track files *)

Definition gpx_time_string_to_datetime (time_string : string)
  : result datetime :=
  dt <- fromisoformat (Py.rstrip_char "Z" time_string) ;;
  Ok (replace_tzinfo dt utc_pytz).

Definition all_timestamps (gpx : gpx_file) : list string :=
  flat_map (fun trkseg =>
    flat_map (fun time_element =>
      match time_element with Some text => [text] | None => [] end) trkseg)
    gpx.

Definition extract_times_from_gpx (gpx : gpx_file)
  : result (option datetime * option datetime) :=
  match all_timestamps gpx with
  | [] => Ok (None, None)
  | t0 :: ts =>
      first_time <- gpx_time_string_to_datetime t0 ;;
      last_time <- gpx_time_string_to_datetime (last ts t0) ;;
      Ok (Some first_time, Some last_time)
  end.

Fixpoint process_routes_loop (files : routes_dir)
    (results : list (string * workout_times))
  : result (list (string * workout_times)) :=
  match files with
  | [] => Ok results
  | (filename, gpx) :: files' =>
      if Py.endswith filename ".gpx" then
        times <- extract_times_from_gpx gpx ;;
        process_routes_loop files'
          (dict_set filename (mk_workout_times (fst times) (snd times)) results)
      else process_routes_loop files' results
  end.

Definition process_workout_routes_dir (workout_routes_dir : routes_dir)
  : result (list (string * workout_times)) :=
  process_routes_loop workout_routes_dir [].

(** *** Midpoint partitioner *)

Fixpoint insert_by_startDate (r : row) (df : list row) : list row :=
  match df with
  | [] => [r]
  | x :: df' =>
      if ns (startDate r) <=? ns (startDate x) then r :: df
      else x :: insert_by_startDate r df'
  end.

(** [df.sort_values(by='startDate')].  Rows that start at the same instant
    keep their order here; pandas may leave them in any order. *)
Fixpoint sort_values (df : list row) : list row :=
  match df with
  | [] => []
  | r :: df' => insert_by_startDate r (sort_values df')
  end.

(** [col.shift(-1)]: every value moves up one place, NaT fills the end. *)
Definition shift_up (col : list Timestamp) : list (option Timestamp) :=
  match col with
  | [] => []
  | _ :: col' => map Some col' ++ [None]
  end.

(** [(next - start) / 2 + start], NaT where [next] is.  The sort makes the
    difference non-negative, where rounding down and rounding towards zero
    agree; on instants read from Encoding B, whole seconds, the halving is
    exact. *)
Definition mid_date (next : option Timestamp) (start : Timestamp)
  : option Timestamp :=
  match next with
  | Some n => Some (mk_Timestamp ((ns n - ns start) / 2 + ns start) (tz start))
  | None => None
  end.

Fixpoint mid_dates (nexts : list (option Timestamp)) (starts : list Timestamp)
  : list (option Timestamp) :=
  match nexts, starts with
  | n :: nexts', s :: starts' => mid_date n s :: mid_dates nexts' starts'
  | _, _ => []
  end.

(** [col.iloc[0]] and [col.iloc[-1]] *)
Definition iloc_first (col : list Timestamp) : result Timestamp :=
  match col with
  | [] => Raise IndexError_out_of_bounds
  | t :: _ => Ok t
  end.

Definition iloc_last (col : list Timestamp) : result Timestamp :=
  match col with
  | [] => Raise IndexError_out_of_bounds
  | t :: col' => Ok (last col' t)
  end.

(** Lines 87-88: the rows of one type, sorted by [startDate]. *)
Definition type_subgroup (workout_health_df : list row) (ty : string)
  : list row :=
  let type_wh_df :=
    filter (fun r => String.eqb (type r) ty) workout_health_df in
  sort_values type_wh_df.

(** The body of the loop over types. *)
Definition mid_dates_of_type (workout_health_df : list row) (ty : string)
  : result (list row) :=
  let type_wh_df := type_subgroup workout_health_df ty in
  if (List.length type_wh_df =? 1)%nat then
    let type_wh_df :=
      map (fun r => set_midStartDate (Some (startDate r)) r) type_wh_df in
    Ok (map (fun r => set_midEndDate (Some (endDate r)) r) type_wh_df)
  else
    let starts := map startDate type_wh_df in
    let midDates := mid_dates (shift_up starts) starts in
    first <- iloc_first starts ;;
    final <- iloc_last starts ;;
    let dateList := [Some first] ++ removelast midDates ++ [Some final] in
    type_wh_df <- assign_list set_midStartDate type_wh_df (removelast dateList) ;;
    assign_list set_midEndDate type_wh_df (tl dateList).

Definition _getMidDates (workout_health_df : list row) : result (list row) :=
  type_wh_dfs <- mapM (mid_dates_of_type workout_health_df)
                      (unique (map type workout_health_df)) ;;
  pd_concat type_wh_dfs.

(** *** Preparing the health table *)

(** Lines whose value is numeric, with the line's label and the number. *)
Fixpoint numeric_rows (i : nat) (csv : list csv_record)
  : list (nat * csv_record * number) :=
  match csv with
  | [] => []
  | c :: csv' =>
      match to_numeric (csv_value c) with
      | Some v => (i, c, v) :: numeric_rows (S i) csv'
      | None => numeric_rows (S i) csv'
      end
  end.

Fixpoint assemble (kept : list (nat * csv_record * number))
    (starts ends : list datetime) : list row :=
  match kept, starts, ends with
  | (i, c, v) :: kept', s :: starts', e :: ends' =>
      mk_row i (csv_type c) v (Timestamp_of_datetime s) (Timestamp_of_datetime e)
             (csv_others c) None None None
      :: assemble kept' starts' ends'
  | _, _, _ => []
  end.

(** Lines 123-130: coerce [value], drop the NaN rows, then convert the
    [startDate] column and after it the [endDate] column. *)
Definition prepare_health_data (csv : list csv_record) : result (list row) :=
  let kept := numeric_rows 0 csv in
  starts <- mapM (fun k => _parse_date_with_offset (csv_startDate (snd (fst k)))) kept ;;
  ends <- mapM (fun k => _parse_date_with_offset (csv_endDate (snd (fst k)))) kept ;;
  Ok (assemble kept starts ends).

(** *** Interval join and filter *)

(** Line 140. *)
Definition select_contained (health_df : list row) (workout_times : workout_times)
  : result (list row) :=
  after <- compare_column GE (map startDate health_df) (wt_startDate workout_times) ;;
  before <- compare_column LE (map endDate health_df) (wt_endDate workout_times) ;;
  Ok (boolean_index health_df (mask_and after before)).

(** One turn of the loop of lines 139-150; [res] is the list of frames
    collected so far. *)
Definition join_step (health_df : list row) (res : list (list row))
    (item : string * workout_times) : result (list (list row)) :=
  let (workout_date, workout_times) := item in
  workout_health_df <- select_contained health_df workout_times ;;
  let types := unique (map type workout_health_df) in
  if contains "VO2Max" types then
    let workout_health_df := map (set_workout_date workout_date) workout_health_df in
    workout_health_df <- _getMidDates workout_health_df ;;
    Ok (res ++ [workout_health_df])
  else Ok res.

Fixpoint join_loop (health_df : list row) (res : list (list row))
    (items : list (string * workout_times)) : result (list (list row)) :=
  match items with
  | [] => Ok res
  | item :: items' =>
      res' <- join_step health_df res item ;;
      join_loop health_df res' items'
  end.

Definition filter_health_export (workout_routes_dir : routes_dir)
    (health_csv : list csv_record) : result (list row) :=
  workout_datetimes <- process_workout_routes_dir workout_routes_dir ;;
  health_df <- prepare_health_data health_csv ;;
  res <- join_loop health_df [] workout_datetimes ;;
  pd_concat res.

(** The output file is [None] while nothing has been written to it. *)
Definition process_workout_health_data (workout_routes_dir : routes_dir)
    (health_csv : list csv_record) (output : option (list row))
  : result unit * option (list row) :=
  match filter_health_export workout_routes_dir health_csv with
  | inl e => (Raise e, output)
  | inr workout_health_df => (Ok tt, Some workout_health_df)
  end.

End Script.

Arguments row : clear implicits.

(* ================================================================= *)
(** ** Readers for the worked examples *)

(** [datetime.fromisoformat] on the shape the track files use,
    [YYYY-MM-DD?HH:MM:SS] with any one character between date and time;
    other shapes are refused here. *)
Definition fromisoformat_seconds (s : string) : result datetime :=
  let two a b :=
    match Py.digit a, Py.digit b with
    | Some x, Some y => Some (10 * x + y)
    | _, _ => None
    end in
  match Py.chars s with
  | [y1; y2; y3; y4; d1; m1; m2; d2; a1; a2; _; h1; h2; c1; n1; n2; c2; s1; s2] =>
      match Strptime.re_Y [y1; y2; y3; y4], two m1 m2, two a1 a2,
            two h1 h2, two n1 n2, two s1 s2 with
      | Some (y, _), Some mo, Some d, Some h, Some mi, Some sec =>
          if Ascii.eqb d1 "-" && Ascii.eqb d2 "-" && Ascii.eqb c1 ":"
             && Ascii.eqb c2 ":" && check_fields y mo d h mi sec 0
          then Ok (mk_datetime y mo d h mi sec 0 None)
          else Raise ValueError_fromisoformat
      | _, _, _, _, _, _ => Raise ValueError_fromisoformat
      end
  | _ => Raise ValueError_fromisoformat
  end.

(** Whole numbers only. *)
Definition to_numeric_int (s : string) : option Z :=
  match Py.int s with
  | inr n => Some n
  | inl _ => None
  end.

Definition run1_gpx : gpx_file :=
  [[Some "2024-01-01T10:00:00Z"; Some "2024-01-01T10:12:00Z"; None;
    Some "2024-01-01T10:30:00Z"]].

Definition scenario_csv : list csv_record :=
  [ mk_csv_record "VO2Max" "40" "2024-01-01 10:05:00 +0000" "2024-01-01 10:06:00 +0000" ["ml/min/kg"];
    mk_csv_record "HeartRate" "130" "2024-01-01 10:10:00 +0000" "2024-01-01 10:11:00 +0000" ["count/min"];
    mk_csv_record "HeartRate" "131" "2024-01-01 10:20:00 +0000" "2024-01-01 10:21:00 +0000" ["count/min"] ].

(** The health table of the scenario once prepared, and the outcome of
    the run on it. *)
Definition scenario_health_df : list (row Z) :=
  match prepare_health_data to_numeric_int scenario_csv with
  | inr df => df
  | inl _ => []
  end.

Definition scenario_out : list (row Z) :=
  match filter_health_export to_numeric_int fromisoformat_seconds
          [("run1.gpx", run1_gpx)] scenario_csv with
  | inr out => out
  | inl _ => []
  end.

Definition run1_window : workout_times :=
  mk_workout_times (Some (mk_datetime 2024 1 1 10 0 0 0 (Some 0)))
                   (Some (mk_datetime 2024 1 1 10 30 0 0 (Some 0))).

(** A track whose points were written latest first. *)
Definition backwards_gpx : gpx_file :=
  [[Some "2024-01-01T10:30:00Z"; Some "2024-01-01T10:00:00Z"]].

(** A track file with a segment and no point in it. *)
Definition empty_gpx : gpx_file := [[]].

(** A workout of another year: it contains none of the scenario's rows. *)
Definition late_gpx : gpx_file := [[Some "2025-01-01T10:00:00Z"]].

(** The scenario's track with an unreadable time between its ends. *)
Definition garbled_gpx : gpx_file :=
  [[Some "2024-01-01T10:00:00Z"; Some "half past ten"];
   [None; Some "2024-01-01T10:30:00Z"]].

(** A directory with a file that is not a track beside the scenario's. *)
Definition mixed_dir : routes_dir :=
  [("notes.txt", [[Some "not a time"]]); ("run1.gpx", run1_gpx)].

(** The scenario's table with a line whose value is not a number and
    whose dates are not dates, and a numeric line with a bad end date. *)
Definition dirty_csv : list csv_record :=
  [ mk_csv_record "VO2Max" "40" "2024-01-01 10:05:00 +0000" "2024-01-01 10:06:00 +0000" [];
    mk_csv_record "Note" "n/a" "yesterday" "today" [];
    mk_csv_record "HeartRate" "130" "2024-01-01 10:10:00 +0000" "2024-01-01 10:11:00 +0000" [] ].

Definition broken_csv : list csv_record :=
  [ mk_csv_record "VO2Max" "40" "2024-01-01 10:05:00 +0000" "2024-01-01 10:06" [] ].

Definition dirty_health_df : list (row Z) :=
  match prepare_health_data to_numeric_int dirty_csv with
  | inr df => df
  | inl _ => []
  end.

Definition backwards_window : workout_times :=
  mk_workout_times (Some (mk_datetime 2024 1 1 10 30 0 0 (Some 0)))
                   (Some (mk_datetime 2024 1 1 10 0 0 0 (Some 0))).

(** The scenario's track under two names: two windows over the same
    samples. *)
Definition twice_dir : routes_dir :=
  [("run1.gpx", run1_gpx); ("again.gpx", run1_gpx)].

Definition twice_out : list (row Z) :=
  match filter_health_export to_numeric_int fromisoformat_seconds
          twice_dir scenario_csv with
  | inr out => out
  | inl _ => []
  end.

(** The scenario's table after the partitioner alone. *)
Definition scenario_partitioned : list (row Z) :=
  match _getMidDates scenario_health_df with
  | inr d => d
  | inl _ => []
  end.

(* ================================================================= *)
(** ** Writing Encoding B *)

(** The layout [YYYY-MM-DD HH:MM:SS ±HHMM] of the health export, field by
    field; used to say which strings are valid and what they say. *)
Definition digit_char (d : Z) : ascii := ascii_of_nat (48 + Z.to_nat d).

Definition two_digits (n : Z) : list ascii :=
  [digit_char (n / 10); digit_char (n mod 10)].

Definition four_digits (n : Z) : list ascii :=
  [digit_char (n / 1000); digit_char (n / 100 mod 10);
   digit_char (n / 10 mod 10); digit_char (n mod 10)].

(** [dt.strftime('%Y-%m-%d %H:%M:%S')], every field zero-padded. *)
Definition strftime (dt : datetime) : string :=
  Py.str (four_digits (year dt) ++ ["-"%char] ++ two_digits (month dt)
          ++ ["-"%char] ++ two_digits (day dt) ++ [" "%char]
          ++ two_digits (hour dt) ++ [":"%char] ++ two_digits (minute dt)
          ++ [":"%char] ++ two_digits (second dt)).

(** The string for wall-clock fields [dt] and an offset written with sign
    [negative], hours [oh] and minutes [om]. *)
Definition encoding_B (dt : datetime) (negative : bool) (oh om : Z) : string :=
  (strftime dt ++ " " ++ (if negative then "-" else "+")
   ++ Py.str (two_digits oh) ++ Py.str (two_digits om))%string.

Definition valid_fields (dt : datetime) (oh om : Z) : Prop :=
  check_fields (year dt) (month dt) (day dt)
               (hour dt) (minute dt) (second dt) 0 = true
  /\ microsecond dt = 0 /\ 0 <= oh <= 23 /\ 0 <= om <= 59.

Definition signed_offset (negative : bool) (oh om : Z) : Z :=
  (if negative then -1 else 1) * (oh * 60 + om).

(* ================================================================= *)
(** ** Vocabulary of the statements *)

Section Vocabulary.

Context {number : Type}.

(** Equal in every column but [midStartDate] and [midEndDate]. *)
Definition same_sample (r r' : row number) : Prop :=
  r' = mk_row (index r) (type r) (value r) (startDate r) (endDate r)
              (others r) (workout_date r) (midStartDate r') (midEndDate r').

(** [r'] is the prepared row [h] with the three assigned columns filled
    in, [workout_date] with [wid], and nothing else touched. *)
Definition annotated (wid : string) (h r' : row number) : Prop :=
  exists a b,
    r' = mk_row (index h) (type h) (value h) (startDate h) (endDate h)
                (others h) (Some wid) (Some a) (Some b).

Definition start_le (r r' : row number) : Prop :=
  ns (startDate r) <= ns (startDate r').

(** The midpoints of neighbouring instants. *)
Fixpoint mids (starts : list Timestamp) : list Timestamp :=
  match starts with
  | s :: (s' :: _) as rest =>
      mk_Timestamp ((ns s' - ns s) / 2 + ns s) (tz s) :: mids rest
  | _ => []
  end.

(** What the two column assignments of the long branch amount to, row by
    row: a row opens at the boundary [b] handed over by its predecessor and
    closes at the midpoint to its successor; the last row closes at its own
    [startDate]. *)
Fixpoint partition_from (b : Timestamp) (g : list (row number))
  : list (row number) :=
  match g with
  | [] => []
  | r :: g' =>
      let close :=
        match g' with
        | [] => startDate r
        | r' :: _ =>
            mk_Timestamp ((ns (startDate r') - ns (startDate r)) / 2
                          + ns (startDate r)) (tz (startDate r))
        end in
      set_midEndDate (Some close) (set_midStartDate (Some b) r)
      :: partition_from close g'
  end.

(** The sample is inside the window: it starts no earlier and ends no
    later. *)
Definition contained (ws we : datetime) (s : row number) : Prop :=
  ns (Timestamp_of_datetime ws) <= ns (startDate s)
  /\ ns (endDate s) <= ns (Timestamp_of_datetime we).

Definition contained_b (ws we : datetime) (s : row number) : bool :=
  (ns (Timestamp_of_datetime ws) <=? ns (startDate s))
  && (ns (endDate s) <=? ns (Timestamp_of_datetime we)).

(** Both assigned boundaries are there, and nothing else changed. *)
Definition filled (r r' : row number) : Prop :=
  same_sample r r'
  /\ exists a c, midStartDate r' = Some a /\ midEndDate r' = Some c.

(** Every row of a collected frame is a row of the prepared table with
    the three new columns filled in. *)
Definition frame_of (health_df : list (row number)) (d : list (row number))
  : Prop :=
  forall r, In r d -> exists h wid, In h health_df /\ annotated wid h r.

(** What the turn of the join loop for [item] hands to the output, given
    the prepared table: nothing when the rows the window contains have no
    ["VO2Max"] among their types, and otherwise one frame holding each of
    those rows, tagged with the window's name, and nothing else. *)
Definition window_contribution (health_df : list (row number))
    (item : string * workout_times) (frames : list (list (row number)))
  : Prop :=
  exists g,
    select_contained health_df (snd item) = Ok g
    /\ ((~ In "VO2Max" (unique (map type g)) /\ frames = [])
        \/ (In "VO2Max" (unique (map type g))
            /\ exists d,
                 frames = [d]
                 /\ (forall h, In h g ->
                       exists r, In r d /\ annotated (fst item) h r
                                 /\ workout_date r = Some (fst item))
                 /\ (forall r, In r d ->
                       exists h, In h g /\ annotated (fst item) h r
                                 /\ workout_date r = Some (fst item)))).

End Vocabulary.

(* ================================================================= *)
(** ** Vocabulary of the further properties *)

Section MoreVocabulary.

Context {number : Type}.

(** A row without its two boundaries: what the partitioner is given. *)
Definition clear_mids (r : row number) : row number :=
  set_midEndDate None (set_midStartDate None r).

(** The row's own [startDate] lies within the boundaries assigned to it. *)
Definition starts_inside (r : row number) : Prop :=
  exists a c,
    midStartDate r = Some a /\ midEndDate r = Some c
    /\ ns a <= ns (startDate r) <= ns c.

(** The rows of one type in the partitioner's result: there is at least
    one, they all have that type, and they are in order of [startDate]. *)
Definition type_block (ty : string) (block : list (row number)) : Prop :=
  block <> [] /\ Forall (fun r => type r = ty) block
  /\ Sorted start_le block.

(** How many rows the window of [item] adds to the output: the rows it
    contains if one of them is a ["VO2Max"] row, none otherwise. *)
Definition rows_contributed (health_df : list (row number))
    (item : string * workout_times) : nat :=
  match select_contained health_df (snd item) with
  | inr g =>
      if contains "VO2Max" (unique (map type g)) then List.length g else 0%nat
  | inl _ => 0%nat
  end.

(** The sample does not end before it starts. *)
Definition well_formed (s : row number) : Prop :=
  ns (startDate s) <= ns (endDate s).

(** The prepared row [r] says what line [index r] of the table says: the
    same type and other cells, and the instants its two date cells parse
    to. *)
Definition normalised_from (health_csv : list csv_record) (r : row number)
  : Prop :=
  exists c s e,
    nth_error health_csv (index r) = Some c
    /\ type r = csv_type c /\ others r = csv_others c
    /\ _parse_date_with_offset (csv_startDate c) = Ok s
    /\ startDate r = Timestamp_of_datetime s
    /\ _parse_date_with_offset (csv_endDate c) = Ok e
    /\ endDate r = Timestamp_of_datetime e.

(** The output has a ["VO2Max"] row of the same workout as [r]. *)
Definition has_vo2max_of (out : list (row number)) (r : row number) : Prop :=
  exists v, In v out /\ type v = "VO2Max" /\ workout_date v = workout_date r.

End MoreVocabulary.

(** The window recorded under a name is the one extracted from a file of
    that name. *)
Definition window_of_file (fromisoformat : string -> result datetime)
    (dir : routes_dir) (entry : string * workout_times) : Prop :=
  exists gpx,
    In (fst entry, gpx) dir
    /\ extract_times_from_gpx fromisoformat gpx
       = Ok (wt_startDate (snd entry), wt_endDate (snd entry)).

(** Encoding B with any character [sep] before the offset and any
    character [sign] at its head. *)
Definition encoding_B_with (dt : datetime) (sep sign : ascii) (oh om : Z)
  : string :=
  (strftime dt ++ Py.str [sep; sign]
   ++ Py.str (two_digits oh) ++ Py.str (two_digits om))%string.


(* ================================================================= *)
(** ** Tactics *)

(** [lia] after division and remainder by constants are spelled out. *)
Ltac zdiv := Z.div_mod_to_equations; lia.

Ltac digit_cases d :=
  let H := fresh in
  assert (H : d = 0 \/ d = 1 \/ d = 2 \/ d = 3 \/ d = 4 \/ d = 5 \/ d = 6
              \/ d = 7 \/ d = 8 \/ d = 9) by lia;
  repeat (destruct H as [H | H]; [subst d | ]); [.. | subst d].

(* ================================================================= *)
(** ** Facts about the text readers *)

Lemma digit_digit_char (d : Z) :
  0 <= d <= 9 -> Py.digit (digit_char d) = Some d.
Proof. intros Hd. digit_cases d; reflexivity. Qed.

Lemma is_space_digit_char (d : Z) :
  0 <= d <= 9 -> Py.is_space (digit_char d) = false.
Proof. intros Hd. digit_cases d; reflexivity. Qed.

Lemma int_two_digit_chars (a b : Z) :
  0 <= a <= 9 -> 0 <= b <= 9 ->
  Py.int (Py.str [digit_char a; digit_char b]) = Ok (10 * a + b).
Proof. intros Ha Hb. digit_cases a; digit_cases b; reflexivity. Qed.

Lemma int_two_digits (n : Z) :
  0 <= n <= 99 -> Py.int (Py.str (two_digits n)) = Ok n.
Proof.
  intros Hn. unfold two_digits.
  rewrite int_two_digit_chars by zdiv. f_equal. zdiv.
Qed.

Lemma group_two_digits two one (n : Z) (r : list ascii) :
  0 <= n <= 99 -> two (n / 10) (n mod 10) = true ->
  Strptime.group two one (two_digits n ++ r) = Some (n, r).
Proof.
  intros Hn Htwo. unfold Strptime.group, two_digits. cbn [app].
  rewrite !digit_digit_char by zdiv. rewrite Htwo.
  do 2 f_equal. zdiv.
Qed.

Lemma re_Y_four_digits (y : Z) (r : list ascii) :
  0 <= y <= 9999 -> Strptime.re_Y (four_digits y ++ r) = Some (y, r).
Proof.
  intros Hy. unfold Strptime.re_Y, four_digits. cbn [app].
  rewrite !digit_digit_char by zdiv. do 2 f_equal. zdiv.
Qed.

Lemma chars_str (l : list ascii) : Py.chars (Py.str l) = l.
Proof. apply list_ascii_of_string_of_list_ascii. Qed.

Lemma len_str (l : list ascii) : Py.len (Py.str l) = List.length l.
Proof.
  unfold Py.len, Py.str. induction l as [| c l IH]; cbn; congruence.
Qed.

Lemma str_app (l1 l2 : list ascii) :
  (Py.str l1 ++ Py.str l2)%string = Py.str (l1 ++ l2).
Proof.
  unfold Py.str. induction l1 as [| c l1 IH]; cbn; congruence.
Qed.

(** The wall-clock part of a valid string is read back field by field. *)
Lemma strptime_strftime (dt : datetime) :
  check_fields (year dt) (month dt) (day dt)
               (hour dt) (minute dt) (second dt) 0 = true ->
  Strptime.strptime (strftime dt)
  = Ok (mk_datetime (year dt) (month dt) (day dt)
                    (hour dt) (minute dt) (second dt) 0 None).
Proof.
  intros Hc. pose proof Hc as Hr. unfold check_fields in Hr.
  repeat rewrite andb_true_iff in Hr. repeat rewrite Z.leb_le in Hr.
  destruct Hr as [[[[[[[[[[[[[Hy1 Hy2] Hm1] Hm2] Hd1] Hd2] Hh1] Hh2] Hn1] Hn2] Hs1] Hs2] _] _].
  assert (Hd3 : day dt <= 31).
  { revert Hd2. unfold days_in_month.
    repeat match goal with |- context [if ?b then _ else _] => destruct b end; lia. }
  unfold Strptime.strptime, strftime. rewrite chars_str.
  unfold Strptime.fields.
  rewrite re_Y_four_digits by zdiv.
  cbn [Strptime.obind app Strptime.lit Ascii.eqb Bool.eqb].
  unfold Strptime.re_m. rewrite group_two_digits;
    [ | zdiv | rewrite orb_true_iff, !andb_true_iff, !Z.eqb_eq, !Z.leb_le; zdiv ].
  cbn [Strptime.obind app Strptime.lit Ascii.eqb Bool.eqb].
  unfold Strptime.re_d. rewrite group_two_digits;
    [ | zdiv | rewrite !orb_true_iff, !andb_true_iff, !Z.eqb_eq, !Z.leb_le; zdiv ].
  cbn [Strptime.obind app].
  replace (Strptime.spaces (" "%char :: two_digits (hour dt) ++ ":"%char :: two_digits (minute dt) ++ ":"%char :: two_digits (second dt)))
    with (Some (two_digits (hour dt) ++ ":"%char :: two_digits (minute dt) ++ ":"%char :: two_digits (second dt)))
    by (unfold two_digits, Strptime.spaces; cbn [app Py.lstrip_space];
        change (Py.is_space " "%char) with true;
        rewrite is_space_digit_char by zdiv; reflexivity).
  cbn [Strptime.obind].
  unfold Strptime.re_H. rewrite group_two_digits;
    [ | zdiv | rewrite orb_true_iff, !andb_true_iff, !Z.eqb_eq, !Z.leb_le; zdiv ].
  cbn [Strptime.obind app Strptime.lit Ascii.eqb Bool.eqb].
  unfold Strptime.re_M. rewrite group_two_digits;
    [ | zdiv | rewrite Z.leb_le; zdiv ].
  cbn [Strptime.obind app Strptime.lit Ascii.eqb Bool.eqb].
  unfold Strptime.re_S.
  rewrite <- (app_nil_r (two_digits (second dt))).
  rewrite group_two_digits;
    [ | zdiv | rewrite orb_true_iff, !andb_true_iff, !Z.eqb_eq, !Z.leb_le; zdiv ].
  cbn [Strptime.obind]. rewrite Hc. reflexivity.
Qed.

Lemma encoding_B_wall (dt : datetime) (negative : bool) (oh om : Z) :
  Py.drop_last 6 (encoding_B dt negative oh om) = strftime dt.
Proof. destruct negative; reflexivity. Qed.

Lemma encoding_B_offset (dt : datetime) (negative : bool) (oh om : Z) :
  Py.take_last 5 (encoding_B dt negative oh om)
  = Py.str ((if negative then "-"%char else "+"%char)
            :: two_digits oh ++ two_digits om).
Proof. destruct negative; reflexivity. Qed.

(** C7.  For every valid Encoding B string, written from wall-clock fields
    [dt] and an offset with sign, hours [oh <= 23] and minutes [om <= 59],
    [_parse_date_with_offset] returns a timezone-aware datetime whose date
    and time fields are the ones written, whose UTC offset is
    [sign * (oh * 60 + om)] minutes, and which renders back to the
    wall-clock text of the string. *)
Theorem parse_date_with_offset_round_trip
    (dt : datetime) (negative : bool) (oh om : Z) :
  valid_fields dt oh om ->
  exists r,
    _parse_date_with_offset (encoding_B dt negative oh om) = Ok r
    /\ (year r, month r, day r) = (year dt, month dt, day dt)
    /\ (hour r, minute r, second r, microsecond r)
       = (hour dt, minute dt, second dt, 0)
    /\ tzinfo r = Some (signed_offset negative oh om)
    /\ strftime r = Py.drop_last 6 (encoding_B dt negative oh om).
Proof.
  intros (Hc & Hus & Hoh & Hom).
  exists (mk_datetime (year dt) (month dt) (day dt) (hour dt) (minute dt)
                      (second dt) 0 (Some (signed_offset negative oh om))).
  split; [ | repeat split ].
  - unfold _parse_date_with_offset.
    rewrite encoding_B_wall, encoding_B_offset.
    rewrite strptime_strftime by exact Hc. cbn [bind Ok].
    replace (Py.slice 1 3 (Py.str ((if negative then "-"%char else "+"%char)
                                    :: two_digits oh ++ two_digits om)))
      with (Py.str (two_digits oh)) by (destruct negative; reflexivity).
    replace (Py.slice 3 5 (Py.str ((if negative then "-"%char else "+"%char)
                                    :: two_digits oh ++ two_digits om)))
      with (Py.str (two_digits om)) by (destruct negative; reflexivity).
    rewrite !int_two_digits by lia. cbn [bind Ok].
    replace (Py.first_char (Py.str ((if negative then "-"%char else "+"%char)
                                     :: two_digits oh ++ two_digits om)))
      with (Ok (if negative then "-"%char else "+"%char))
      by (destruct negative; reflexivity).
    cbn [bind Ok].
    assert (Htz : forall m, -1440 < m < 1440 -> timezone_minutes m = Ok m).
    { intros m Hm. unfold timezone_minutes.
      destruct (Z.ltb_spec (-1440) m); destruct (Z.ltb_spec m 1440);
        try lia; reflexivity. }
    unfold signed_offset.
    destruct negative; cbn [Ascii.eqb Bool.eqb];
      rewrite Htz by lia; cbn [bind Ok replace_tzinfo year month day hour
                                 minute second microsecond];
      unfold replace_tzinfo; cbn [year month day hour minute second
                                  microsecond];
      do 3 f_equal; lia.
  - rewrite encoding_B_wall. reflexivity.
Qed.

Lemma parse_date_with_offset_round_trip_witness :
  exists r,
    _parse_date_with_offset "2023-11-06 07:08:09 -0530" = Ok r
    /\ (year r, month r, day r) = (2023, 11, 6)
    /\ (hour r, minute r, second r, microsecond r) = (7, 8, 9, 0)
    /\ tzinfo r = Some (-330)
    /\ strftime r = "2023-11-06 07:08:09".
Proof.
  apply (parse_date_with_offset_round_trip
           (mk_datetime 2023 11 6 7 8 9 0 None) true 5 30).
  unfold valid_fields. cbn. lia.
Defined.

(* ================================================================= *)
(** ** Facts about the error monad and column helpers *)

Lemma bind_Ok_inv {A B} (m : result A) (k : A -> result B) (b : B) :
  bind m k = Ok b -> exists a, m = Ok a /\ k a = Ok b.
Proof. destruct m as [e | a]; cbn; [discriminate | eauto]. Qed.

Lemma mapM_Ok_Forall2 {A B} (f : A -> result B) (l : list A) (bs : list B) :
  mapM f l = Ok bs -> Forall2 (fun a b => f a = Ok b) l bs.
Proof.
  revert bs. induction l as [| a l IH]; cbn; intros bs H.
  - injection H as <-. constructor.
  - apply bind_Ok_inv in H as (b & Hb & H).
    apply bind_Ok_inv in H as (bs' & Hbs & H).
    injection H as <-. constructor; auto.
Qed.

Lemma Forall2_mapM_Ok {A B} (f : A -> result B) (l : list A) (bs : list B) :
  Forall2 (fun a b => f a = Ok b) l bs -> mapM f l = Ok bs.
Proof.
  induction 1 as [| a b l bs Hab _ IH]; cbn; [reflexivity | ].
  rewrite Hab. cbn. rewrite IH. reflexivity.
Qed.

Lemma unique_from_In (seen l : list string) (x : string) :
  In x (unique_from seen l) <-> In x l /\ ~ In x seen.
Proof.
  revert seen. induction l as [| y l IH]; intros seen; cbn.
  - tauto.
  - destruct (existsb (String.eqb y) seen) eqn:E.
    + apply existsb_exists in E as (z & Hz & Ezy).
      apply String.eqb_eq in Ezy. subst z.
      rewrite IH. split.
      * intros [H1 H2]. auto.
      * intros [[-> | H1] H2]; [contradiction | auto].
    + assert (Hy : ~ In y seen).
      { intros Hin. apply Bool.not_true_iff_false in E. apply E.
        apply existsb_exists. exists y. split; [exact Hin | apply String.eqb_refl]. }
      cbn. rewrite IH. cbn. split.
      * intros [<- | [H1 H2]]; [auto | ]. split; [auto | ]. intros H3. apply H2. auto.
      * intros [[<- | H1] H2]; [auto | ].
        destruct (string_dec y x) as [-> | Hne]; [auto | ].
        right. split; [exact H1 | ]. intros [H3 | H3]; auto.
Qed.

Lemma unique_In (l : list string) (x : string) : In x (unique l) <-> In x l.
Proof. unfold unique. rewrite unique_from_In. cbn. tauto. Qed.

Lemma contains_In (x : string) (l : list string) :
  contains x l = true <-> In x l.
Proof.
  unfold contains. rewrite existsb_exists. split.
  - intros (y & Hy & E). apply String.eqb_eq in E. subst. exact Hy.
  - intros H. exists x. split; [exact H | apply String.eqb_refl].
Qed.

(* ================================================================= *)
(** ** The midpoint partitioner *)

Section MidpointFacts.

Context {number : Type}.
Lemma last_cons {A} (l : list A) (a d : A) : last (a :: l) d = last l a.
Proof.
  revert a d. induction l as [| x l IH]; intros a d; [reflexivity | ].
  change (last (a :: x :: l) d) with (last (x :: l) d).
  rewrite (IH x d), (IH x a). reflexivity.
Qed.

Lemma insert_by_startDate_perm (r : row number) (df : list (row number)) :
  Permutation (r :: df) (insert_by_startDate r df).
Proof.
  induction df as [| x df IH]; cbn; [reflexivity | ].
  destruct (ns (startDate r) <=? ns (startDate x)); [reflexivity | ].
  rewrite perm_swap. constructor. exact IH.
Qed.

Lemma sort_values_perm (df : list (row number)) : Permutation df (sort_values df).
Proof.
  induction df as [| r df IH]; cbn; [constructor | ].
  rewrite <- insert_by_startDate_perm. constructor. exact IH.
Qed.

Lemma insert_by_startDate_sorted (r : row number) (df : list (row number)) :
  Sorted start_le df -> Sorted start_le (insert_by_startDate r df).
Proof.
  induction df as [| x df IH]; cbn; intros Hs.
  - repeat constructor.
  - destruct (Z.leb_spec (ns (startDate r)) (ns (startDate x))) as [Hle | Hgt].
    + constructor; [exact Hs | constructor; exact Hle].
    + inversion Hs as [| ? ? Hs' Hhd]; subst.
      constructor; [auto | ].
      destruct df as [| y df]; cbn.
      * constructor. unfold start_le. lia.
      * destruct (ns (startDate r) <=? ns (startDate y)).
        -- constructor. unfold start_le. lia.
        -- inversion Hhd; subst. constructor. assumption.
Qed.

Lemma sort_values_sorted (df : list (row number)) : Sorted start_le (sort_values df).
Proof.
  induction df as [| r df IH]; cbn; [constructor | ].
  apply insert_by_startDate_sorted, IH.
Qed.

Lemma type_subgroup_In (df : list (row number)) (ty : string) (r : row number) :
  In r (type_subgroup df ty) <-> In r df /\ type r = ty.
Proof.
  unfold type_subgroup. split.
  - intros H. apply (Permutation_in _ (Permutation_sym (sort_values_perm _))) in H.
    apply filter_In in H as [H1 H2]. apply String.eqb_eq in H2. auto.
  - intros [H1 H2]. apply (Permutation_in _ (sort_values_perm _)).
    apply filter_In. split; [exact H1 | apply String.eqb_eq, H2].
Qed.

Lemma mid_dates_shift_up (s : Timestamp) (l : list Timestamp) :
  mid_dates (shift_up (s :: l)) (s :: l) = map Some (mids (s :: l)) ++ [None].
Proof.
  cbn [shift_up]. revert s.
  induction l as [| s' l IH]; intros s; [reflexivity | ].
  cbn [map app mid_dates mid_date mids]. f_equal. apply IH.
Qed.

Lemma assign_partition (r0 : row number) (g : list (row number)) (b final : Timestamp) :
  final = last (map startDate g) (startDate r0) ->
  bind (assign_list set_midStartDate (r0 :: g)
          (Some b :: map Some (mids (map startDate (r0 :: g)))))
       (fun d => assign_list set_midEndDate d
          (map Some (mids (map startDate (r0 :: g))) ++ [Some final]))
  = Ok (partition_from b (r0 :: g)).
Proof.
  revert r0 b. induction g as [| r1 g IH]; intros r0 b Hfinal.
  - cbn in Hfinal. subst final. reflexivity.
  - specialize (IH r1 (mk_Timestamp ((ns (startDate r1) - ns (startDate r0)) / 2
                                      + ns (startDate r0)) (tz (startDate r0)))).
    assert (Hf : final = last (map startDate g) (startDate r1)).
    { rewrite Hfinal. cbn [map]. apply last_cons. }
    specialize (IH Hf).
    apply bind_Ok_inv in IH as (d1 & Hd1 & Hd2).
    cbn [map mids assign_list] in *.
    rewrite Hd1. cbn [bind Ok app assign_list]. rewrite Hd2. reflexivity.
Qed.

(** The long branch of the partitioner, on a subgroup that is not empty. *)
Lemma mid_dates_of_type_long (df : list (row number)) (ty : string)
    (r0 r1 : row number) (g : list (row number)) :
  type_subgroup df ty = r0 :: r1 :: g ->
  mid_dates_of_type df ty = Ok (partition_from (startDate r0) (r0 :: r1 :: g)).
Proof.
  intros Hg. unfold mid_dates_of_type. rewrite Hg.
  cbn [List.length Nat.eqb]. cbv zeta.
  change (map startDate (r0 :: r1 :: g))
    with (startDate r0 :: map startDate (r1 :: g)).
  rewrite mid_dates_shift_up. rewrite removelast_last.
  cbn [iloc_first iloc_last bind Ok].
  change ([Some (startDate r0)] ++ ?x) with (Some (startDate r0) :: x).
  cbn [tl].
  rewrite app_comm_cons, removelast_last.
  apply (assign_partition r0 (r1 :: g)). reflexivity.
Qed.

(** The short branch. *)
Lemma mid_dates_of_type_single (df : list (row number)) (ty : string) (r0 : row number) :
  type_subgroup df ty = [r0] ->
  mid_dates_of_type df ty
  = Ok [set_midEndDate (Some (endDate r0))
          (set_midStartDate (Some (startDate r0)) r0)].
Proof. intros Hg. unfold mid_dates_of_type. rewrite Hg. reflexivity. Qed.

Lemma partition_from_same_sample (b : Timestamp) (g : list (row number)) :
  Forall2 same_sample g (partition_from b g).
Proof.
  revert b. induction g as [| r g IH]; intros b; cbn [partition_from].
  - constructor.
  - constructor; [reflexivity | apply IH].
Qed.

Lemma partition_from_opens (b : Timestamp) (g : list (row number))
    (r : row number) :
  nth_error (partition_from b g) 0 = Some r -> midStartDate r = Some b.
Proof.
  destruct g as [| r0 g]; cbn; intros H; [discriminate | ].
  injection H as <-. reflexivity.
Qed.

Lemma partition_from_adjacent (b : Timestamp) (g : list (row number))
    (i : nat) (r r' : row number) :
  nth_error (partition_from b g) i = Some r ->
  nth_error (partition_from b g) (S i) = Some r' ->
  midEndDate r = midStartDate r'
  /\ exists m, midEndDate r = Some m
       /\ ns m = ns (startDate r) + (ns (startDate r') - ns (startDate r)) / 2.
Proof.
  revert b i r r'. induction g as [| r0 g IH]; intros b i r r' Hi HSi.
  - destruct i; discriminate.
  - cbn [partition_from] in Hi, HSi. destruct i as [| i].
    + cbn [nth_error] in Hi, HSi. injection Hi as <-.
      destruct g as [| r1 g]; [discriminate | ].
      cbn [partition_from] in HSi.
      injection HSi as <-.
      cbn [midEndDate midStartDate set_midEndDate set_midStartDate startDate].
      split; [reflexivity | ].
      eexists. split; [reflexivity | ]. cbn [ns]. lia.
    + cbn [nth_error] in Hi, HSi. exact (IH _ _ _ _ Hi HSi).
Qed.

Lemma partition_from_closes (b : Timestamp) (g : list (row number))
    (i : nat) (r : row number) :
  nth_error (partition_from b g) i = Some r ->
  nth_error (partition_from b g) (S i) = None ->
  midEndDate r = Some (startDate r).
Proof.
  revert b i r. induction g as [| r0 g IH]; intros b i r Hi HSi.
  - destruct i; discriminate.
  - cbn [partition_from] in Hi, HSi. destruct i as [| i].
    + cbn [nth_error] in Hi, HSi. injection Hi as <-.
      destruct g as [| r1 g]; [reflexivity | discriminate].
    + cbn [nth_error] in Hi, HSi. exact (IH _ _ _ Hi HSi).
Qed.

Lemma partition_from_length (b : Timestamp) (g : list (row number)) :
  List.length (partition_from b g) = List.length g.
Proof.
  revert b. induction g as [| r g IH]; intros b; cbn [partition_from List.length];
    [reflexivity | ]. f_equal. apply IH.
Qed.

Lemma partition_from_ordered (b : Timestamp) (g : list (row number)) :
  Sorted start_le g ->
  match g with [] => True | r0 :: _ => ns b <= ns (startDate r0) end ->
  forall r, In r (partition_from b g) ->
  exists a c, midStartDate r = Some a /\ midEndDate r = Some c /\ ns a <= ns c.
Proof.
  revert b. induction g as [| r0 g IH]; intros b Hs Hb r Hin; [contradiction | ].
  cbn [partition_from] in Hin.
  inversion Hs as [| ? ? Hs' Hhd]; subst.
  destruct Hin as [<- | Hin].
  - do 2 eexists. split; [reflexivity | ]. split; [reflexivity | ].
    destruct g as [| r1 g]; [exact Hb | ].
    inversion Hhd as [| ? ? Hle]; subst. unfold start_le in Hle.
    cbn [ns]. zdiv.
  - apply (IH _ Hs') in Hin; [exact Hin | ].
    destruct g as [| r1 g]; [exact I | ].
    inversion Hhd as [| ? ? Hle]; subst. unfold start_le in Hle.
    cbn [ns]. zdiv.
Qed.

Lemma two_or_more {A} (l : list A) :
  (2 <= List.length l)%nat -> exists a b l', l = a :: b :: l'.
Proof.
  destruct l as [| a [| b l']]; cbn; intros H; try lia. eauto.
Qed.

End MidpointFacts.

(* ================================================================= *)
(** ** The interval join *)

Section JoinFacts.

Context {number : Type}.

Lemma boolean_index_masks (f g : row number -> bool) (df : list (row number)) :
  boolean_index df (mask_and (map f df) (map g df))
  = filter (fun r => f r && g r) df.
Proof.
  induction df as [| r df IH]; cbn; [reflexivity | ].
  rewrite IH. reflexivity.
Qed.

(** A window with both bounds selects by plain filtering. *)
Lemma select_contained_defined (health_df : list (row number))
    (w : workout_times) (ws we : datetime) :
  wt_startDate w = Some ws -> wt_endDate w = Some we ->
  select_contained health_df w = Ok (filter (contained_b ws we) health_df).
Proof.
  intros Hs He. unfold select_contained, compare_column. rewrite Hs, He.
  cbn [bind Ok]. rewrite !map_map.
  rewrite (boolean_index_masks
             (fun r => cmp_ns GE (ns (startDate r)) (ns (Timestamp_of_datetime ws)))
             (fun r => cmp_ns LE (ns (endDate r)) (ns (Timestamp_of_datetime we)))).
  reflexivity.
Qed.

Lemma contained_b_iff (ws we : datetime) (s : row number) :
  contained_b ws we s = true <-> contained ws we s.
Proof.
  unfold contained_b, contained. rewrite andb_true_iff, !Z.leb_le. tauto.
Qed.

(** C4.  For a window with both bounds defined, a row of the prepared
    table is in the window's group exactly when it starts no earlier than
    the window and ends no later; a row that reaches over either bound is
    left out, whether or not it overlaps the window. *)
Theorem containment_join (health_df : list (row number))
    (w : workout_times) (ws we : datetime) :
  wt_startDate w = Some ws -> wt_endDate w = Some we ->
  exists g,
    select_contained health_df w = Ok g
    /\ (forall s, In s g <->
                  In s health_df
                  /\ ns (Timestamp_of_datetime ws) <= ns (startDate s)
                  /\ ns (endDate s) <= ns (Timestamp_of_datetime we))
    /\ (forall s, In s health_df ->
                  ns (startDate s) < ns (Timestamp_of_datetime ws)
                  \/ ns (Timestamp_of_datetime we) < ns (endDate s) ->
                  ~ In s g).
Proof.
  intros Hs He. exists (filter (contained_b ws we) health_df).
  split; [apply select_contained_defined; assumption | ].
  assert (Hiff : forall s, In s (filter (contained_b ws we) health_df) <->
                           In s health_df
                           /\ ns (Timestamp_of_datetime ws) <= ns (startDate s)
                           /\ ns (endDate s) <= ns (Timestamp_of_datetime we)).
  { intros s. rewrite filter_In, contained_b_iff. reflexivity. }
  split; [exact Hiff | ].
  intros s _ Hout Hin. apply Hiff in Hin. lia.
Qed.

Lemma Forall2_in_left {A B} (R : A -> B -> Prop) (l : list A) (l' : list B) (a : A) :
  Forall2 R l l' -> In a l -> exists b, In b l' /\ R a b.
Proof.
  induction 1 as [| x y l l' Hxy _ IH]; cbn; [contradiction | ].
  intros [<- | Hin]; [eauto | ].
  destruct (IH Hin) as (b & Hb & Hab). eauto.
Qed.

Lemma Forall2_in_right {A B} (R : A -> B -> Prop) (l : list A) (l' : list B) (b : B) :
  Forall2 R l l' -> In b l' -> exists a, In a l /\ R a b.
Proof.
  induction 1 as [| x y l l' Hxy _ IH]; cbn; [contradiction | ].
  intros [<- | Hin]; [eauto | ].
  destruct (IH Hin) as (a & Ha & Hab). eauto.
Qed.

Lemma mapM_total {A B} (f : A -> result B) (l : list A) :
  (forall a, In a l -> exists b, f a = Ok b) -> exists bs, mapM f l = Ok bs.
Proof.
  induction l as [| a l IH]; intros H; cbn.
  - eauto.
  - destruct (H a (or_introl eq_refl)) as (b & Hb).
    destruct IH as (bs & Hbs); [intros; apply H; right; assumption | ].
    rewrite Hb, Hbs. cbn. eauto.
Qed.

Lemma partition_from_filled (b : Timestamp) (g : list (row number)) :
  Forall2 filled g (partition_from b g).
Proof.
  revert b. induction g as [| r g IH]; intros b; cbn [partition_from].
  - constructor.
  - constructor; [ | apply IH]. split; [reflexivity | ].
    do 2 eexists. split; reflexivity.
Qed.

Lemma mid_dates_of_type_rows (df : list (row number)) (ty : string) :
  In ty (map type df) ->
  exists d, mid_dates_of_type df ty = Ok d
            /\ Forall2 filled (type_subgroup df ty) d.
Proof.
  intros Hty. apply in_map_iff in Hty as (r & Hr & Hin).
  assert (Hsub : In r (type_subgroup df ty)) by (apply type_subgroup_In; auto).
  destruct (type_subgroup df ty) as [| r0 [| r1 g]] eqn:Hg.
  - contradiction.
  - eexists. split; [apply mid_dates_of_type_single, Hg | ].
    constructor; [ | constructor]. split; [reflexivity | ].
    do 2 eexists. split; reflexivity.
  - eexists. split; [apply mid_dates_of_type_long, Hg | ].
    apply partition_from_filled.
Qed.

(** The partitioner on a frame that is not empty: it succeeds, and its
    rows are the rows it was given, each with its two boundaries. *)
Lemma getMidDates_rows (df : list (row number)) :
  df <> [] ->
  exists d, _getMidDates df = Ok d
            /\ (forall r, In r df -> exists r', In r' d /\ filled r r')
            /\ (forall r', In r' d -> exists r, In r df /\ filled r r').
Proof.
  intros Hne. unfold _getMidDates.
  destruct (mapM_total (mid_dates_of_type df) (unique (map type df)))
    as (ds & Hds).
  { intros ty Hty. apply (proj1 (unique_In _ _)) in Hty.
    destruct (mid_dates_of_type_rows df ty Hty) as (d & Hd & _). eauto. }
  rewrite Hds. cbn [bind]. pose proof (mapM_Ok_Forall2 _ _ _ Hds) as Hall.
  assert (Hds_ne : ds <> []).
  { destruct df as [| r df]; [congruence | ].
    assert (Hin : In (type r) (unique (map type (r :: df))))
      by (apply (proj2 (unique_In _ _)); left; reflexivity).
    destruct (Forall2_in_left _ _ _ _ Hall Hin) as (d & Hd & _).
    intros ->. contradiction. }
  destruct ds as [| d0 ds']; [congruence | ].
  exists (List.concat (d0 :: ds')). split; [reflexivity | ]. split.
  - intros r Hr.
    assert (Hty : In (type r) (unique (map type df)))
      by (apply (proj2 (unique_In _ _)), in_map, Hr).
    destruct (Forall2_in_left _ _ _ _ Hall Hty) as (d & Hd & Hmid).
    destruct (mid_dates_of_type_rows df (type r)) as (d' & Hd' & Hrows);
      [apply in_map, Hr | ].
    rewrite Hmid in Hd'. injection Hd' as <-.
    assert (Hsub : In r (type_subgroup df (type r)))
      by (apply type_subgroup_In; auto).
    destruct (Forall2_in_left _ _ _ _ Hrows Hsub) as (r' & Hr' & Hfill).
    exists r'. split; [ | exact Hfill].
    apply in_concat. exists d. auto.
  - intros r' Hr'. apply in_concat in Hr' as (d & Hd & Hr').
    destruct (Forall2_in_right _ _ _ _ Hall Hd) as (ty & Hty & Hmid).
    destruct (mid_dates_of_type_rows df ty) as (d' & Hd' & Hrows);
      [apply (proj1 (unique_In _ _)), Hty | ].
    rewrite Hmid in Hd'. injection Hd' as <-.
    destruct (Forall2_in_right _ _ _ _ Hrows Hr') as (r & Hr & Hfill).
    exists r. split; [ | exact Hfill].
    apply type_subgroup_In in Hr. tauto.
Qed.

Lemma filled_tagged_annotated (wid : string) (h r' : row number) :
  filled (set_workout_date wid h) r' -> annotated wid h r'.
Proof.
  intros [Hsame (a & c & Ha & Hc)]. exists a, c.
  unfold same_sample in Hsame. rewrite Ha, Hc in Hsame. exact Hsame.
Qed.

(** One turn of the join loop, by cases on the gate. *)
Lemma join_step_cases (health_df : list (row number))
    (res : list (list (row number))) (wid : string) (w : workout_times)
    (g : list (row number)) :
  select_contained health_df w = Ok g ->
  (contains "VO2Max" (unique (map type g)) = false ->
   join_step health_df res (wid, w) = Ok res)
  /\ (contains "VO2Max" (unique (map type g)) = true ->
      exists d,
        join_step health_df res (wid, w) = Ok (res ++ [d])
        /\ (forall h, In h g -> exists r, In r d /\ annotated wid h r)
        /\ (forall r, In r d -> exists h, In h g /\ annotated wid h r)).
Proof.
  intros Hsel. unfold join_step. rewrite Hsel. cbn [bind Ok]. cbv zeta. split.
  - intros ->. reflexivity.
  - intros Hgate. rewrite Hgate.
    assert (Hne : map (set_workout_date wid) g <> []).
    { apply (proj1 (contains_In _ _)), (proj1 (unique_In _ _)), in_map_iff in Hgate as (r & _ & Hr).
      destruct g; [contradiction | discriminate]. }
    destruct (getMidDates_rows _ Hne) as (d & Hd & Hfwd & Hbwd).
    exists d. rewrite Hd. cbn [bind Ok]. split; [reflexivity | ]. split.
    + intros h Hh.
      destruct (Hfwd (set_workout_date wid h)) as (r & Hr & Hfill);
        [apply in_map, Hh | ].
      exists r. split; [exact Hr | apply filled_tagged_annotated, Hfill].
    + intros r Hr. destruct (Hbwd r Hr) as (t & Ht & Hfill).
      apply in_map_iff in Ht as (h & <- & Hh).
      exists h. split; [exact Hh | apply filled_tagged_annotated, Hfill].
Qed.

End JoinFacts.

(* ================================================================= *)
(** ** The whole run *)

Section PipelineFacts.

Context {number : Type}.
Variable to_numeric : string -> option number.
Variable fromisoformat : string -> result datetime.

Lemma boolean_index_subset {A} (df : list A) (mask : list bool) (r : A) :
  In r (boolean_index df mask) -> In r df.
Proof.
  revert mask. induction df as [| x df IH]; intros [| b mask]; cbn; try tauto.
  destruct b; cbn; intros H; [destruct H | ]; eauto.
Qed.

Lemma select_contained_subset (health_df g : list (row number))
    (w : workout_times) :
  select_contained health_df w = Ok g -> forall h, In h g -> In h health_df.
Proof.
  unfold select_contained. intros H h Hh.
  apply bind_Ok_inv in H as (m1 & _ & H).
  apply bind_Ok_inv in H as (m2 & _ & H).
  injection H as <-. eapply boolean_index_subset, Hh.
Qed.

Lemma join_step_frames (health_df : list (row number))
    (res res' : list (list (row number))) (item : string * workout_times) :
  join_step health_df res item = Ok res' ->
  Forall (frame_of health_df) res -> Forall (frame_of health_df) res'.
Proof.
  destruct item as [wid w]. intros Hstep Hres.
  pose proof Hstep as Hsel. unfold join_step in Hsel.
  apply bind_Ok_inv in Hsel as (g & Hsel & _).
  destruct (join_step_cases health_df res wid w g Hsel) as [Hskip Hkeep].
  destruct (contains "VO2Max" (unique (map type g))) eqn:E.
  - destruct (Hkeep eq_refl) as (d & Hd & _ & Hbwd).
    rewrite Hd in Hstep. injection Hstep as <-.
    apply Forall_app. split; [exact Hres | ].
    constructor; [ | constructor]. intros r Hr.
    destruct (Hbwd r Hr) as (h & Hh & Han).
    exists h, wid. split; [ | exact Han].
    eapply select_contained_subset; eassumption.
  - rewrite (Hskip eq_refl) in Hstep. injection Hstep as <-. exact Hres.
Qed.

Lemma join_loop_frames (health_df : list (row number))
    (items : list (string * workout_times)) (res res' : list (list (row number))) :
  join_loop health_df res items = Ok res' ->
  Forall (frame_of health_df) res -> Forall (frame_of health_df) res'.
Proof.
  revert res. induction items as [| item items IH]; cbn; intros res H Hres.
  - injection H as <-. exact Hres.
  - apply bind_Ok_inv in H as (res1 & Hstep & H).
    eapply IH; [exact H | ]. eapply join_step_frames; eassumption.
Qed.

Lemma assemble_absent (kept : list (nat * csv_record * number))
    (starts ends : list datetime) (h : row number) :
  In h (assemble kept starts ends) ->
  workout_date h = None /\ midStartDate h = None /\ midEndDate h = None.
Proof.
  revert starts ends.
  induction kept as [| [[i c] v] kept IH]; intros [| s starts] [| e ends];
    cbn; try contradiction.
  intros [<- | Hin]; [auto | eauto].
Qed.

Lemma output_rows_annotated (workout_routes_dir : routes_dir)
    (health_csv : list csv_record) (health_df out : list (row number)) :
  prepare_health_data to_numeric health_csv = Ok health_df ->
  filter_health_export to_numeric fromisoformat workout_routes_dir health_csv
  = Ok out ->
  frame_of health_df out.
Proof.
  intros Hprep Hrun r Hr. unfold filter_health_export in Hrun.
  apply bind_Ok_inv in Hrun as (windows & _ & Hrun).
  rewrite Hprep in Hrun. cbn [bind Ok] in Hrun.
  apply bind_Ok_inv in Hrun as (res & Hloop & Hcat).
  assert (Hframes : Forall (frame_of health_df) res)
    by (eapply join_loop_frames; [exact Hloop | constructor]).
  destruct res as [| d0 res]; [discriminate | ].
  cbn in Hcat. injection Hcat as <-.
  change (In r (List.concat (d0 :: res))) in Hr.
  apply in_concat in Hr as (d & Hd & Hr).
  rewrite Forall_forall in Hframes.
  exact (Hframes d Hd r Hr).
Qed.

(** C10.  Every row of the output is a row of the prepared health table
    (numeric [value], normalised [startDate] and [endDate]) in which the
    three columns [workout_date], [midStartDate] and [midEndDate], absent
    until then, have been filled in; [index], [type], [value],
    [startDate], [endDate] and all other columns are as they were. *)
Theorem original_fields_unchanged (workout_routes_dir : routes_dir)
    (health_csv : list csv_record) (health_df out : list (row number)) :
  prepare_health_data to_numeric health_csv = Ok health_df ->
  filter_health_export to_numeric fromisoformat workout_routes_dir health_csv
  = Ok out ->
  forall r, In r out ->
  exists h wid a b,
    In h health_df
    /\ workout_date h = None /\ midStartDate h = None /\ midEndDate h = None
    /\ r = mk_row (index h) (type h) (value h) (startDate h) (endDate h)
                  (others h) (Some wid) (Some a) (Some b).
Proof.
  intros Hprep Hrun r Hr.
  destruct (output_rows_annotated _ _ _ _ Hprep Hrun r Hr)
    as (h & wid & Hh & a & b & Hrow).
  exists h, wid, a, b. split; [exact Hh | ].
  unfold prepare_health_data in Hprep.
  apply bind_Ok_inv in Hprep as (starts & _ & Hprep).
  apply bind_Ok_inv in Hprep as (ends & _ & Hprep).
  injection Hprep as <-.
  destruct (assemble_absent _ _ _ _ Hh) as (H1 & H2 & H3). auto.
Qed.

Lemma join_step_contribution (health_df : list (row number))
    (res res' : list (list (row number))) (item : string * workout_times) :
  join_step health_df res item = Ok res' ->
  exists frames,
    res' = res ++ frames /\ window_contribution health_df item frames.
Proof.
  destruct item as [wid w]. intros Hstep.
  pose proof Hstep as Hsel. unfold join_step in Hsel.
  apply bind_Ok_inv in Hsel as (g & Hsel & _).
  destruct (join_step_cases health_df res wid w g Hsel) as [Hskip Hkeep].
  destruct (contains "VO2Max" (unique (map type g))) eqn:E.
  - destruct (Hkeep eq_refl) as (d & Hd & Hfwd & Hbwd).
    rewrite Hd in Hstep. injection Hstep as <-.
    exists [d]. split; [reflexivity | ].
    exists g. split; [exact Hsel | ]. right.
    split; [apply contains_In, E | ].
    exists d. split; [reflexivity | ]. cbn [fst]. split.
    + intros h Hh. destruct (Hfwd h Hh) as (r & Hr & Han).
      exists r. repeat split; try assumption.
      destruct Han as (a & c & ->). reflexivity.
    + intros r Hr. destruct (Hbwd r Hr) as (h & Hh & Han).
      exists h. repeat split; try assumption.
      destruct Han as (a & c & ->). reflexivity.
  - rewrite (Hskip eq_refl) in Hstep. injection Hstep as <-.
    exists []. split; [symmetry; apply app_nil_r | ].
    exists g. split; [exact Hsel | ]. left. split; [ | reflexivity].
    intros Hin. apply (proj2 (contains_In _ _)) in Hin. congruence.
Qed.

Lemma join_loop_contributions (health_df : list (row number))
    (items : list (string * workout_times)) (res res' : list (list (row number))) :
  join_loop health_df res items = Ok res' ->
  exists contributions,
    res' = res ++ List.concat contributions
    /\ Forall2 (window_contribution health_df) items contributions.
Proof.
  revert res. induction items as [| item items IH]; cbn [join_loop]; intros res H.
  - injection H as <-. exists []. split; [symmetry; apply app_nil_r | constructor].
  - apply bind_Ok_inv in H as (res1 & Hstep & H).
    destruct (join_step_contribution _ _ _ _ Hstep) as (frames & -> & Hc).
    destruct (IH _ H) as (rest & -> & Hrest).
    exists (frames :: rest). split; [ | constructor; assumption].
    cbn [List.concat]. rewrite app_assoc. reflexivity.
Qed.

(** C5.  The output is the concatenation, window by window, of what each
    window contributes; a window whose contained rows have no ["VO2Max"]
    among their distinct types contributes no row at all, whatever other
    types they have, and any other window contributes every row it
    contains, each tagged with [workout_date] equal to the window's name,
    and nothing else. *)
Theorem vo2max_gating (workout_routes_dir : routes_dir)
    (health_csv : list csv_record)
    (windows : list (string * workout_times))
    (health_df out : list (row number)) :
  process_workout_routes_dir fromisoformat workout_routes_dir = Ok windows ->
  prepare_health_data to_numeric health_csv = Ok health_df ->
  filter_health_export to_numeric fromisoformat workout_routes_dir health_csv
  = Ok out ->
  exists contributions,
    Forall2 (window_contribution health_df) windows contributions
    /\ out = List.concat (List.concat contributions).
Proof.
  intros Hdir Hprep Hrun. unfold filter_health_export in Hrun.
  rewrite Hdir, Hprep in Hrun. cbn [bind Ok] in Hrun.
  apply bind_Ok_inv in Hrun as (res & Hloop & Hcat).
  destruct (join_loop_contributions _ _ _ _ Hloop) as (cs & Hres & Hcs).
  cbn [app] in Hres. subst res.
  exists cs. split; [exact Hcs | ].
  destruct (List.concat cs) as [| d0 ds]; [discriminate | ].
  cbn in Hcat. injection Hcat as <-. reflexivity.
Qed.

Lemma join_loop_none_qualify (health_df : list (row number))
    (items : list (string * workout_times)) (res : list (list (row number))) :
  Forall (fun item =>
            exists g, select_contained health_df (snd item) = Ok g
                      /\ ~ In "VO2Max" (unique (map type g))) items ->
  join_loop health_df res items = Ok res.
Proof.
  induction 1 as [| [wid w] items (g & Hsel & Hno) _ IH]; cbn [join_loop];
    [reflexivity | ].
  cbn [snd] in Hsel.
  destruct (join_step_cases health_df res wid w g Hsel) as [Hskip _].
  rewrite Hskip; [exact IH | ].
  destruct (contains "VO2Max" (unique (map type g))) eqn:E; [ | reflexivity].
  apply (proj1 (contains_In _ _)) in E. contradiction.
Qed.

(** C2.  When every window selects its rows without error and none of
    the groups has a ["VO2Max"] row, the list of frames is empty and the
    run ends in the failure [pd.concat] raises for it,
    [ValueError: No objects to concatenate]; the output file is left as it
    was. *)
Theorem empty_result_fails_explicitly (workout_routes_dir : routes_dir)
    (health_csv : list csv_record)
    (windows : list (string * workout_times)) (health_df : list (row number))
    (output : option (list (row number))) :
  process_workout_routes_dir fromisoformat workout_routes_dir = Ok windows ->
  prepare_health_data to_numeric health_csv = Ok health_df ->
  Forall (fun item =>
            exists g, select_contained health_df (snd item) = Ok g
                      /\ ~ In "VO2Max" (unique (map type g))) windows ->
  join_loop health_df [] windows = Ok []
  /\ filter_health_export to_numeric fromisoformat workout_routes_dir health_csv
     = Raise ValueError_no_objects_to_concatenate
  /\ process_workout_health_data to_numeric fromisoformat
       workout_routes_dir health_csv output
     = (Raise ValueError_no_objects_to_concatenate, output).
Proof.
  intros Hdir Hprep Hnone.
  pose proof (join_loop_none_qualify health_df windows [] Hnone) as Hloop.
  assert (Hrun : filter_health_export to_numeric fromisoformat
                   workout_routes_dir health_csv
                 = Raise ValueError_no_objects_to_concatenate).
  { unfold filter_health_export. rewrite Hdir. cbn [bind Ok].
    rewrite Hprep. cbn [bind Ok]. rewrite Hloop. reflexivity. }
  split; [exact Hloop | ]. split; [exact Hrun | ].
  unfold process_workout_health_data. rewrite Hrun. reflexivity.
Qed.

Lemma numeric_rows_In (i : nat) (csv : list csv_record)
    (j : nat) (c : csv_record) (v : number) :
  In (j, c, v) (numeric_rows to_numeric i csv) <->
  exists k, j = (i + k)%nat /\ nth_error csv k = Some c
            /\ to_numeric (csv_value c) = Some v.
Proof.
  revert i. induction csv as [| x csv IH]; intros i; cbn [numeric_rows].
  - split; [contradiction | ]. intros ([| k] & _ & H & _); discriminate.
  - assert (Htail : In (j, c, v) (numeric_rows to_numeric (S i) csv) <->
                    exists k, j = (i + S k)%nat /\ nth_error csv k = Some c
                              /\ to_numeric (csv_value c) = Some v).
    { rewrite IH. split; intros (k & Hj & H); exists k; (split; [lia | exact H]). }
    destruct (to_numeric (csv_value x)) as [vx | ] eqn:Ex.
    + cbn [In]. rewrite Htail. split.
      * intros [Heq | (k & Hj & Hk & Hv)].
        -- injection Heq as <- <- <-. exists 0%nat. repeat split; [lia | exact Ex].
        -- exists (S k). auto.
      * intros ([| k] & Hj & Hk & Hv).
        -- cbn in Hk. injection Hk as <-. left.
           rewrite Ex in Hv. injection Hv as <-. f_equal. f_equal. lia.
        -- right. exists k. auto.
    + rewrite Htail. split.
      * intros (k & Hj & Hk & Hv). exists (S k). auto.
      * intros ([| k] & Hj & Hk & Hv).
        -- cbn in Hk. injection Hk as <-. congruence.
        -- exists k. auto.
Qed.

Lemma assemble_from_kept (kept : list (nat * csv_record * number))
    (starts ends : list datetime) (r : row number) :
  In r (assemble kept starts ends) ->
  exists c, In (index r, c, value r) kept /\ type r = csv_type c
            /\ others r = csv_others c.
Proof.
  revert starts ends.
  induction kept as [| [[i c] v] kept IH]; intros [| s starts] [| e ends];
    cbn [assemble In]; try contradiction.
  intros [<- | Hin].
  - exists c. cbn. auto.
  - destruct (IH _ _ Hin) as (c' & H1 & H2). exists c'. auto.
Qed.

Lemma assemble_covers (kept : list (nat * csv_record * number))
    (starts ends : list datetime) (i : nat) (c : csv_record) (v : number) :
  List.length starts = List.length kept ->
  List.length ends = List.length kept ->
  In (i, c, v) kept ->
  exists r, In r (assemble kept starts ends)
            /\ index r = i /\ value r = v /\ type r = csv_type c
            /\ others r = csv_others c.
Proof.
  revert starts ends.
  induction kept as [| [[i' c'] v'] kept IH]; intros [| s starts] [| e ends];
    cbn [List.length assemble In]; try contradiction; try discriminate.
  intros Hs He [Heq | Hin].
  - injection Heq as -> -> ->. eexists. split; [left; reflexivity | cbn; auto].
  - destruct (IH starts ends) as (r & Hr & H); [lia | lia | exact Hin | ].
    exists r. auto.
Qed.

Lemma mapM_length {A B} (f : A -> result B) (l : list A) (bs : list B) :
  mapM f l = Ok bs -> List.length bs = List.length l.
Proof.
  intros H. apply mapM_Ok_Forall2 in H.
  induction H; cbn; congruence.
Qed.

(** C9.  Lines of the health table whose [value] is not numeric are
    dropped before the dates are normalised: their date cells are never
    read, so they cannot make the run fail; no row of the prepared table,
    and so no row reaching the join, the partitioner or the output, comes
    from such a line; and every line with a numeric [value] is in the
    prepared table. *)
Theorem numeric_filtering (health_csv : list csv_record) :
  ((forall c, In c health_csv -> to_numeric (csv_value c) <> None ->
              (exists s, _parse_date_with_offset (csv_startDate c) = Ok s)
              /\ (exists e, _parse_date_with_offset (csv_endDate c) = Ok e)) ->
   exists health_df, prepare_health_data to_numeric health_csv = Ok health_df)
  /\ (forall health_df,
        prepare_health_data to_numeric health_csv = Ok health_df ->
        (forall r, In r health_df ->
                   exists c, nth_error health_csv (index r) = Some c
                             /\ to_numeric (csv_value c) = Some (value r))
        /\ (forall i c, nth_error health_csv i = Some c ->
                        to_numeric (csv_value c) = None ->
                        forall r, In r health_df -> index r <> i)
        /\ (forall i c v, nth_error health_csv i = Some c ->
                          to_numeric (csv_value c) = Some v ->
                          exists r, In r health_df /\ index r = i /\ value r = v
                                    /\ type r = csv_type c))
  /\ (forall workout_routes_dir out,
        filter_health_export to_numeric fromisoformat workout_routes_dir health_csv
        = Ok out ->
        forall r, In r out ->
                  exists c, nth_error health_csv (index r) = Some c
                            /\ to_numeric (csv_value c) = Some (value r)).
Proof.
  assert (Horigin : forall health_df,
             prepare_health_data to_numeric health_csv = Ok health_df ->
             forall r, In r health_df ->
                       exists c, nth_error health_csv (index r) = Some c
                                 /\ to_numeric (csv_value c) = Some (value r)).
  { intros health_df Hprep r Hr. unfold prepare_health_data in Hprep.
    apply bind_Ok_inv in Hprep as (starts & _ & Hprep).
    apply bind_Ok_inv in Hprep as (ends & _ & Hprep).
    injection Hprep as <-.
    destruct (assemble_from_kept _ _ _ _ Hr) as (c & Hc & _).
    apply numeric_rows_In in Hc as (k & Hk & Hnth & Hv).
    exists c. cbn in Hk. subst k. auto. }
  split; [ | split].
  - intros Hdates. unfold prepare_health_data.
    assert (Hkept : forall k, In k (numeric_rows to_numeric 0 health_csv) ->
                              In (snd (fst k)) health_csv
                              /\ to_numeric (csv_value (snd (fst k))) <> None).
    { intros [[j c] v] Hk. apply numeric_rows_In in Hk as (k & _ & Hnth & Hv).
      cbn. split; [eapply nth_error_In, Hnth | congruence]. }
    destruct (mapM_total
                (fun k => _parse_date_with_offset (csv_startDate (snd (fst k))))
                (numeric_rows to_numeric 0 health_csv)) as (starts & Hstarts).
    { intros k Hk. destruct (Hkept k Hk) as [Hin Hnum].
      exact (proj1 (Hdates _ Hin Hnum)). }
    destruct (mapM_total
                (fun k => _parse_date_with_offset (csv_endDate (snd (fst k))))
                (numeric_rows to_numeric 0 health_csv)) as (ends & Hends).
    { intros k Hk. destruct (Hkept k Hk) as [Hin Hnum].
      exact (proj2 (Hdates _ Hin Hnum)). }
    rewrite Hstarts. cbn [bind Ok]. rewrite Hends. cbn [bind Ok]. eauto.
  - intros health_df Hprep. split; [exact (Horigin _ Hprep) | ]. split.
    + intros i c Hnth Hnone r Hr Hi.
      destruct (Horigin _ Hprep r Hr) as (c' & Hnth' & Hv).
      rewrite Hi, Hnth in Hnth'. injection Hnth' as <-. congruence.
    + intros i c v Hnth Hv. unfold prepare_health_data in Hprep.
      apply bind_Ok_inv in Hprep as (starts & Hstarts & Hprep).
      apply bind_Ok_inv in Hprep as (ends & Hends & Hprep).
      injection Hprep as <-.
      destruct (assemble_covers (numeric_rows to_numeric 0 health_csv)
                  starts ends i c v) as (r & Hr & H1 & H2 & H3 & _).
      * eapply mapM_length, Hstarts.
      * eapply mapM_length, Hends.
      * apply numeric_rows_In. exists i. auto.
      * exists r. auto.
  - intros workout_routes_dir out Hrun r Hr.
    pose proof Hrun as Hprep. unfold filter_health_export in Hprep.
    apply bind_Ok_inv in Hprep as (windows & _ & Hprep).
    apply bind_Ok_inv in Hprep as (health_df & Hprep & _).
    destruct (output_rows_annotated _ _ _ _ Hprep Hrun r Hr)
      as (h & wid & Hh & a & b & ->).
    exact (Horigin _ Hprep h Hh).
Qed.

(** A track without points gives a window without bounds. *)
Lemma extract_times_no_points (gpx : gpx_file) :
  all_timestamps gpx = [] ->
  extract_times_from_gpx fromisoformat gpx = Ok (None, None).
Proof. intros H. unfold extract_times_from_gpx. rewrite H. reflexivity. Qed.

(** Such a window stops the join as soon as the [startDate] column has a
    [datetime64] dtype. *)
Lemma select_contained_no_bounds (health_df : list (row number))
    (w : workout_times) :
  wt_startDate w = None ->
  column_dtype (map startDate health_df) = datetime64_tz ->
  select_contained health_df w = Raise TypeError_invalid_comparison.
Proof.
  intros Hs Hd. unfold select_contained, compare_column. rewrite Hs, Hd.
  reflexivity.
Qed.

Lemma Forall2_last {A B} (R : A -> B -> Prop) (l : list A) (l' : list B)
    (a : A) (b : B) :
  R a b -> Forall2 R l l' -> R (last l a) (last l' b).
Proof.
  intros Hab H. revert a b Hab.
  induction H as [| x y l l' Hxy _ IH]; intros a b Hab; [exact Hab | ].
  rewrite !last_cons. apply IH, Hxy.
Qed.

Lemma sorted_first_last (l : list datetime) (a : datetime) :
  Sorted (fun x y => ns (Timestamp_of_datetime x) <= ns (Timestamp_of_datetime y))
         (a :: l) ->
  ns (Timestamp_of_datetime a) <= ns (Timestamp_of_datetime (last l a)).
Proof.
  revert a. induction l as [| b l IH]; intros a Hs; [cbn; lia | ].
  inversion Hs as [| ? ? Hs' Hhd]; subst. inversion Hhd as [| ? ? Hab]; subst.
  rewrite last_cons. specialize (IH b Hs'). lia.
Qed.

(** C8, as the code has it.  For a track with at least one point, the
    window starts at the first point encountered and ends at the last one
    encountered, whatever lies between them and in whatever order; if the
    points are in chronological order then [startDate <= endDate]. *)
Theorem extract_times_first_last (gpx : gpx_file) (t0 : string)
    (ts : list string) (dts : list datetime) :
  all_timestamps gpx = t0 :: ts ->
  mapM (gpx_time_string_to_datetime fromisoformat) (t0 :: ts) = Ok dts ->
  exists s e,
    extract_times_from_gpx fromisoformat gpx = Ok (Some s, Some e)
    /\ gpx_time_string_to_datetime fromisoformat t0 = Ok s
    /\ gpx_time_string_to_datetime fromisoformat (last ts t0) = Ok e
    /\ (Sorted (fun x y => ns (Timestamp_of_datetime x)
                            <= ns (Timestamp_of_datetime y)) dts ->
        ns (Timestamp_of_datetime s) <= ns (Timestamp_of_datetime e)).
Proof.
  intros Hpts Hall. apply mapM_Ok_Forall2 in Hall.
  inversion Hall as [| ? a ? rest Ha Hrest]; subst.
  pose proof (Forall2_last _ _ _ _ _ Ha Hrest) as Hb. cbn beta in Hb.
  exists a, (last rest a).
  unfold extract_times_from_gpx. rewrite Hpts, Ha. cbn [bind Ok].
  rewrite Hb. cbn [bind Ok].
  repeat split. apply sorted_first_last.
Qed.

End PipelineFacts.

(* ================================================================= *)
(** ** The properties on the scenario of the specification *)

(** One track from 10:00 to 10:30 and three samples inside it: all three
    come out tagged, and the two heart-rate rows meet at 10:15:00. *)
Example scenario_run :
  map (fun r => (type r, workout_date r,
                 option_map ns (midStartDate r), option_map ns (midEndDate r)))
      scenario_out
  = [ ("VO2Max", Some "run1.gpx",
       Some 1704103500000000000, Some 1704103560000000000);
      ("HeartRate", Some "run1.gpx",
       Some 1704103800000000000, Some 1704104100000000000);
      ("HeartRate", Some "run1.gpx",
       Some 1704104100000000000, Some 1704104400000000000) ]
  /\ ns (Timestamp_of_datetime (mk_datetime 2024 1 1 10 15 0 0 (Some 0)))
     = 1704104100000000000.
Proof. split; vm_compute; reflexivity. Qed.

(** C1 fails on the scenario: the heart-rate rows of the output are a
    subgroup of two, and the last of them closes at its own [startDate],
    10:20:00, a minute before its [endDate]. *)
Lemma last_midEndDate_is_not_endDate :
  exists r0 r,
    filter (fun x => String.eqb (type x) "HeartRate") scenario_out = [r0; r]
    /\ midEndDate r = Some (startDate r)
    /\ ns (startDate r) = 1704104400000000000
    /\ ns (endDate r) = 1704104460000000000
    /\ (ns (startDate r) <? ns (endDate r)) = true.
Proof.
  do 2 eexists. split; [vm_compute; reflexivity | ].
  repeat split.
Qed.

Lemma containment_join_witness :
  exists g,
    select_contained scenario_health_df run1_window = Ok g
    /\ (forall s, In s g <->
                  In s scenario_health_df
                  /\ ns (Timestamp_of_datetime (mk_datetime 2024 1 1 10 0 0 0 (Some 0)))
                     <= ns (startDate s)
                  /\ ns (endDate s)
                     <= ns (Timestamp_of_datetime (mk_datetime 2024 1 1 10 30 0 0 (Some 0))))
    /\ (forall s, In s scenario_health_df ->
                  ns (startDate s)
                  < ns (Timestamp_of_datetime (mk_datetime 2024 1 1 10 0 0 0 (Some 0)))
                  \/ ns (Timestamp_of_datetime (mk_datetime 2024 1 1 10 30 0 0 (Some 0)))
                     < ns (endDate s) ->
                  ~ In s g).
Proof.
  apply (containment_join scenario_health_df run1_window); reflexivity.
Defined.

Lemma vo2max_gating_witness :
  exists contributions,
    Forall2 (window_contribution scenario_health_df)
            [("run1.gpx", run1_window)] contributions
    /\ scenario_out = List.concat (List.concat contributions).
Proof.
  apply (vo2max_gating to_numeric_int fromisoformat_seconds
           [("run1.gpx", run1_gpx)] scenario_csv).
  - vm_compute. reflexivity.
  - vm_compute. reflexivity.
  - vm_compute. reflexivity.
Defined.

Lemma empty_result_fails_explicitly_witness :
  join_loop scenario_health_df []
    [("late.gpx",
      mk_workout_times (Some (mk_datetime 2025 1 1 10 0 0 0 (Some 0)))
                       (Some (mk_datetime 2025 1 1 10 0 0 0 (Some 0))))]
  = Ok []
  /\ filter_health_export to_numeric_int fromisoformat_seconds
       [("late.gpx", late_gpx)] scenario_csv
     = Raise ValueError_no_objects_to_concatenate
  /\ process_workout_health_data to_numeric_int fromisoformat_seconds
       [("late.gpx", late_gpx)] scenario_csv None
     = (Raise ValueError_no_objects_to_concatenate, None).
Proof.
  apply (empty_result_fails_explicitly to_numeric_int fromisoformat_seconds
           [("late.gpx", late_gpx)] scenario_csv).
  - vm_compute. reflexivity.
  - vm_compute. reflexivity.
  - constructor; [ | constructor].
    exists []. split; [vm_compute; reflexivity | ].
    cbn. tauto.
Defined.

Lemma original_fields_unchanged_witness :
  exists h wid a b,
    In h scenario_health_df
    /\ workout_date h = None /\ midStartDate h = None /\ midEndDate h = None
    /\ mk_row 2%nat "HeartRate" 131
              (mk_Timestamp 1704104400000000000 (Some 0))
              (mk_Timestamp 1704104460000000000 (Some 0))
              ["count/min"] (Some "run1.gpx")
              (Some (mk_Timestamp 1704104100000000000 (Some 0)))
              (Some (mk_Timestamp 1704104400000000000 (Some 0)))
       = mk_row (index h) (type h) (value h) (startDate h) (endDate h)
                (others h) (Some wid) (Some a) (Some b).
Proof.
  apply (original_fields_unchanged to_numeric_int fromisoformat_seconds
           [("run1.gpx", run1_gpx)] scenario_csv scenario_health_df scenario_out).
  - vm_compute. reflexivity.
  - vm_compute. reflexivity.
  - vm_compute. tauto.
Defined.

(** C3 fails on the code: with a pointless track in the directory, the
    join stops at [health_df['startDate'] >= None] with a [TypeError], and
    nothing is written, though [run1.gpx] alone would have given output. *)
Theorem empty_track_stops_the_join :
  extract_times_from_gpx fromisoformat_seconds empty_gpx = Ok (None, None)
  /\ column_dtype (map startDate scenario_health_df) = datetime64_tz
  /\ filter_health_export to_numeric_int fromisoformat_seconds
       [("empty.gpx", empty_gpx); ("run1.gpx", run1_gpx)] scenario_csv
     = Raise TypeError_invalid_comparison
  /\ process_workout_health_data to_numeric_int fromisoformat_seconds
       [("empty.gpx", empty_gpx); ("run1.gpx", run1_gpx)] scenario_csv None
     = (Raise TypeError_invalid_comparison, None).
Proof. repeat split; vm_compute; reflexivity. Qed.

(** C8 fails on a track written latest first: the window starts at
    10:30:00 and ends at 10:00:00. *)
Lemma backwards_track_window :
  extract_times_from_gpx fromisoformat_seconds backwards_gpx
  = Ok (Some (mk_datetime 2024 1 1 10 30 0 0 (Some 0)),
        Some (mk_datetime 2024 1 1 10 0 0 0 (Some 0)))
  /\ (ns (Timestamp_of_datetime (mk_datetime 2024 1 1 10 0 0 0 (Some 0)))
      <? ns (Timestamp_of_datetime (mk_datetime 2024 1 1 10 30 0 0 (Some 0))))
     = true.
Proof. split; vm_compute; reflexivity. Qed.

Lemma extract_times_first_last_witness :
  exists s e,
    extract_times_from_gpx fromisoformat_seconds run1_gpx = Ok (Some s, Some e)
    /\ gpx_time_string_to_datetime fromisoformat_seconds "2024-01-01T10:00:00Z"
       = Ok s
    /\ gpx_time_string_to_datetime fromisoformat_seconds
         (last ["2024-01-01T10:12:00Z"; "2024-01-01T10:30:00Z"]
               "2024-01-01T10:00:00Z")
       = Ok e
    /\ (Sorted (fun x y => ns (Timestamp_of_datetime x)
                            <= ns (Timestamp_of_datetime y))
               [ mk_datetime 2024 1 1 10 0 0 0 (Some 0);
                 mk_datetime 2024 1 1 10 12 0 0 (Some 0);
                 mk_datetime 2024 1 1 10 30 0 0 (Some 0) ] ->
        ns (Timestamp_of_datetime s) <= ns (Timestamp_of_datetime e)).
Proof.
  apply (extract_times_first_last fromisoformat_seconds run1_gpx).
  - reflexivity.
  - vm_compute. reflexivity.
Defined.
(** Encoding B on a few strings. *)
Example parse_b_1 :
  _parse_date_with_offset "2024-01-01 10:05:00 +0000"
  = Ok (mk_datetime 2024 1 1 10 5 0 0 (Some 0)).
Proof. reflexivity. Qed.

Example parse_b_2 :
  _parse_date_with_offset "2023-11-06 07:08:09 -0530"
  = Ok (mk_datetime 2023 11 6 7 8 9 0 (Some (-330))).
Proof. reflexivity. Qed.

Example parse_b_3 :
  _parse_date_with_offset "2023-02-29 07:08:09 -0530" = Raise ValueError_strptime.
Proof. reflexivity. Qed.

Example parse_b_4 :
  _parse_date_with_offset "2023-02-28 07:08:09 +2400" = Raise ValueError_timezone.
Proof. reflexivity. Qed.

(* ================================================================= *)
(** ** More on the midpoint partitioner *)

Section MidpointMore.

Context {number : Type}.

Lemma Forall2_refine {A B} (R R' : A -> B -> Prop) (l : list A) (l' : list B) :
  Forall2 R l l' ->
  (forall a b, In a l -> R a b -> R' a b) ->
  Forall2 R' l l'.
Proof.
  induction 1 as [| a b l l' Hab _ IH]; intros Himp; constructor.
  - apply Himp; [left; reflexivity | exact Hab].
  - apply IH. intros a' b' Hin. apply Himp. right. exact Hin.
Qed.

(** The result of the partitioner is one block per distinct type, in the
    order [unique] lists them. *)
Lemma getMidDates_blocks (df d : list (row number)) :
  _getMidDates df = Ok d ->
  exists blocks,
    d = List.concat blocks
    /\ Forall2 (fun ty block => Forall2 filled (type_subgroup df ty) block)
               (unique (map type df)) blocks.
Proof.
  unfold _getMidDates. intros H.
  apply bind_Ok_inv in H as (blocks & Hall & Hcat).
  exists blocks. split.
  - destruct blocks; [discriminate | ]. cbn in Hcat. injection Hcat as <-.
    reflexivity.
  - apply mapM_Ok_Forall2 in Hall.
    apply (Forall2_refine _ _ _ _ Hall). intros ty block Hty Hmid.
    apply (proj1 (unique_In _ _)) in Hty.
    destruct (mid_dates_of_type_rows df ty Hty) as (block' & Hmid' & Hrows).
    rewrite Hmid in Hmid'. injection Hmid' as <-. exact Hrows.
Qed.

Lemma filled_clear_mids (r r' : row number) :
  filled r r' -> clear_mids r' = clear_mids r.
Proof.
  intros [Hsame _]. unfold same_sample in Hsame. rewrite Hsame.
  reflexivity.
Qed.

Lemma Forall2_filled_clear (g d : list (row number)) :
  Forall2 filled g d -> map clear_mids d = map clear_mids g.
Proof.
  induction 1 as [| r r' g d Hr _ IH]; cbn; [reflexivity | ].
  rewrite (filled_clear_mids _ _ Hr), IH. reflexivity.
Qed.

Lemma unique_from_NoDup (seen l : list string) : NoDup (unique_from seen l).
Proof.
  revert seen. induction l as [| x l IH]; intros seen; cbn; [constructor | ].
  destruct (existsb (String.eqb x) seen); [apply IH | ].
  constructor; [ | apply IH].
  intros Hin. apply unique_from_In in Hin as [_ Hnot]. apply Hnot. left.
  reflexivity.
Qed.

Lemma flat_map_same_on {A B} (f g : A -> list B) (l : list A) :
  (forall a, In a l -> f a = g a) -> flat_map f l = flat_map g l.
Proof.
  induction l as [| a l IH]; intros H; cbn; [reflexivity | ].
  rewrite H by (left; reflexivity). rewrite IH; [reflexivity | ].
  intros a' Ha'. apply H. right. exact Ha'.
Qed.

(** Splitting a frame by the distinct values of [type] loses and repeats
    nothing. *)
Lemma split_by_type_perm (keys : list string) (l : list (row number)) :
  NoDup keys -> (forall r, In r l -> In (type r) keys) ->
  Permutation
    (flat_map (fun k => filter (fun r => String.eqb (type r) k) l) keys) l.
Proof.
  intros Hnd. induction l as [| x l IH]; intros Hin.
  - cbn [filter]. clear Hnd Hin. induction keys; cbn; [constructor | assumption].
  - assert (IH' := IH (fun r Hr => Hin r (or_intror Hr))).
    assert (Hx := Hin x (or_introl eq_refl)).
    apply Permutation_trans
      with (x :: flat_map (fun k => filter (fun r => String.eqb (type r) k) l)
                          keys);
      [ | constructor; exact IH'].
    clear IH IH' Hin.
    induction keys as [| k keys IHk]; [contradiction | ].
    inversion Hnd as [| ? ? Hk Hnd']; subst.
    cbn [flat_map filter].
    destruct (String.eqb_spec (type x) k) as [Heq | Hne].
    + rewrite (flat_map_same_on
                 (fun k0 => filter (fun r => String.eqb (type r) k0) (x :: l))
                 (fun k0 => filter (fun r => String.eqb (type r) k0) l)).
      * reflexivity.
      * intros k' Hk'. cbn [filter].
        destruct (String.eqb_spec (type x) k') as [Heq' | _]; [ | reflexivity].
        subst. contradiction.
    + destruct Hx as [Hx | Hx]; [congruence | ].
      rewrite (IHk Hnd' Hx). apply Permutation_sym, Permutation_middle.
Qed.

Lemma blocks_clear_perm (df : list (row number)) (keys : list string)
    (blocks : list (list (row number))) :
  Forall2 (fun ty block => Forall2 filled (type_subgroup df ty) block)
          keys blocks ->
  Permutation
    (map clear_mids (List.concat blocks))
    (map clear_mids
         (flat_map (fun k => filter (fun r => String.eqb (type r) k) df) keys)).
Proof.
  induction 1 as [| ty block keys blocks Hb _ IH]; cbn [List.concat flat_map];
    [constructor | ].
  rewrite !map_app. apply Permutation_app; [ | exact IH].
  rewrite (Forall2_filled_clear _ _ Hb). apply Permutation_map.
  unfold type_subgroup. apply Permutation_sym, sort_values_perm.
Qed.

Lemma getMidDates_clear_perm (df d : list (row number)) :
  _getMidDates df = Ok d ->
  Permutation (map clear_mids d) (map clear_mids df).
Proof.
  intros H. destruct (getMidDates_blocks df d H) as (blocks & -> & Hblocks).
  rewrite (blocks_clear_perm df _ _ Hblocks). apply Permutation_map.
  apply split_by_type_perm.
  - apply unique_from_NoDup.
  - intros r Hr. apply (proj2 (unique_In _ _)), in_map, Hr.
Qed.

Lemma getMidDates_length (df d : list (row number)) :
  _getMidDates df = Ok d -> List.length d = List.length df.
Proof.
  intros H. apply getMidDates_clear_perm, Permutation_length in H.
  rewrite !length_map in H. exact H.
Qed.

(** X1.  The partitioner keeps every row and repeats none: its result is
    the frame it was given, rearranged, once the two new columns are set
    aside. *)
Theorem getMidDates_keeps_rows (df d : list (row number)) :
  _getMidDates df = Ok d ->
  Permutation (map clear_mids d) (map clear_mids df)
  /\ List.length d = List.length df.
Proof.
  intros H. split; [apply getMidDates_clear_perm, H | apply getMidDates_length, H].
Qed.

Lemma Forall2_filled_sorted (g d : list (row number)) :
  Forall2 filled g d -> Sorted start_le g -> Sorted start_le d.
Proof.
  induction 1 as [| r r' g d Hr Hrest IH]; intros Hs; [constructor | ].
  inversion Hs as [| ? ? Hs' Hhd]; subst. constructor; [auto | ].
  destruct Hrest as [| x x' g d Hx _]; constructor.
  inversion Hhd as [| ? ? Hle]; subst.
  destruct Hr as [Hr _], Hx as [Hx _].
  unfold start_le, same_sample in *. rewrite Hr, Hx. exact Hle.
Qed.

(** X3.  The rows of the partitioner's result come in blocks, one for each
    distinct type in order of first appearance in its input; a block holds
    rows of its type only and is sorted by [startDate]. *)
Theorem getMidDates_blocks_in_order (df d : list (row number)) :
  _getMidDates df = Ok d ->
  exists blocks,
    d = List.concat blocks
    /\ Forall2 type_block (unique (map type df)) blocks.
Proof.
  intros H. destruct (getMidDates_blocks df d H) as (blocks & -> & Hblocks).
  exists blocks. split; [reflexivity | ].
  apply (Forall2_refine _ _ _ _ Hblocks). intros ty block Hty Hrows.
  apply (proj1 (unique_In _ _)), in_map_iff in Hty as (r & Hr & Hin).
  assert (Hsub : In r (type_subgroup df ty)) by (apply type_subgroup_In; auto).
  split; [ | split].
  - destruct (Forall2_in_left _ _ _ _ Hrows Hsub) as (r' & Hr' & _).
    intros ->. contradiction.
  - apply Forall_forall. intros r' Hr'.
    destruct (Forall2_in_right _ _ _ _ Hrows Hr') as (r0 & Hr0 & [Hsame _]).
    apply type_subgroup_In in Hr0 as [_ Hty0].
    unfold same_sample in Hsame. rewrite Hsame. exact Hty0.
  - apply (Forall2_filled_sorted _ _ Hrows). apply sort_values_sorted.
Qed.

Lemma partition_from_inside (b : Timestamp) (g : list (row number)) :
  Sorted start_le g ->
  match g with [] => True | r0 :: _ => ns b <= ns (startDate r0) end ->
  Forall starts_inside (partition_from b g).
Proof.
  revert b. induction g as [| r0 g IH]; intros b Hs Hb; [constructor | ].
  cbn [partition_from]. inversion Hs as [| ? ? Hs' Hhd]; subst.
  constructor.
  - do 2 eexists. split; [reflexivity | ]. split; [reflexivity | ].
    destruct g as [| r1 g]; cbn [startDate set_midEndDate set_midStartDate];
      [lia | ].
    inversion Hhd as [| ? ? Hle]; subst. unfold start_le in Hle.
    cbn [ns]. zdiv.
  - apply IH; [exact Hs' | ].
    destruct g as [| r1 g]; [exact I | ].
    inversion Hhd as [| ? ? Hle]; subst. unfold start_le in Hle.
    cbn [ns]. zdiv.
Qed.

Lemma sort_values_single (r : row number) : sort_values [r] = [r].
Proof. reflexivity. Qed.

(** X5.  A row that is the only one of its type in the frame keeps its raw
    interval: it comes out with [midStartDate = startDate] and
    [midEndDate = endDate]. *)
Theorem single_sample_identity (df d : list (row number)) (r : row number) :
  _getMidDates df = Ok d ->
  filter (fun x => String.eqb (type x) (type r)) df = [r] ->
  In (set_midEndDate (Some (endDate r)) (set_midStartDate (Some (startDate r)) r))
     d.
Proof.
  intros H Honly. unfold _getMidDates in H.
  apply bind_Ok_inv in H as (blocks & Hall & Hcat).
  destruct blocks as [| b0 blocks]; [discriminate | ].
  cbn in Hcat. injection Hcat as <-.
  change (In (set_midEndDate (Some (endDate r))
                (set_midStartDate (Some (startDate r)) r))
             (List.concat (b0 :: blocks))).
  apply mapM_Ok_Forall2 in Hall.
  assert (Hr : In r df).
  { assert (Hin : In r (filter (fun x => String.eqb (type x) (type r)) df))
      by (rewrite Honly; left; reflexivity).
    apply filter_In in Hin. tauto. }
  assert (Hty : In (type r) (unique (map type df)))
    by (apply (proj2 (unique_In _ _)), in_map, Hr).
  destruct (Forall2_in_left _ _ _ _ Hall Hty) as (block & Hblock & Hmid).
  apply in_concat. exists block. split; [exact Hblock | ].
  rewrite (mid_dates_of_type_single df (type r) r) in Hmid.
  - injection Hmid as <-. left. reflexivity.
  - unfold type_subgroup. rewrite Honly. reflexivity.
Qed.

End MidpointMore.

(* ================================================================= *)
(** ** What the partitioner returns, type by type *)

Section PartitionerResult.

Context {number : Type}.

Lemma filter_own_type (ty : string) (block : list (row number)) :
  Forall (fun r => type r = ty) block ->
  filter (fun r => String.eqb (type r) ty) block = block.
Proof.
  induction 1 as [| r block Hr _ IH]; cbn [filter]; [reflexivity | ].
  rewrite Hr, String.eqb_refl, IH. reflexivity.
Qed.

Lemma filter_other_type (ty k : string) (block : list (row number)) :
  k <> ty -> Forall (fun r => type r = k) block ->
  filter (fun r => String.eqb (type r) ty) block = [].
Proof.
  intros Hne. induction 1 as [| r block Hr _ IH]; cbn [filter]; [reflexivity | ].
  rewrite Hr. destruct (String.eqb_spec k ty); [contradiction | exact IH].
Qed.

Lemma filter_other_blocks (ty : string) (keys : list string)
    (blocks : list (list (row number))) :
  ~ In ty keys ->
  Forall2 (fun k block => Forall (fun r => type r = k) block) keys blocks ->
  filter (fun r => String.eqb (type r) ty) (List.concat blocks) = [].
Proof.
  intros Hnot H. induction H as [| k block keys blocks Hk _ IH];
    cbn [List.concat]; [reflexivity | ].
  rewrite filter_app, (filter_other_type ty k block), IH; [reflexivity | | | exact Hk].
  - intros Hin. apply Hnot. right. exact Hin.
  - intros ->. apply Hnot. left. reflexivity.
Qed.

(** Among blocks of distinct types, the rows of one type are its block. *)
Lemma filter_finds_block (ty : string) (keys : list string)
    (blocks : list (list (row number))) :
  NoDup keys ->
  Forall2 (fun k block => Forall (fun r => type r = k) block) keys blocks ->
  In ty keys ->
  exists block,
    In (ty, block) (combine keys blocks)
    /\ filter (fun r => String.eqb (type r) ty) (List.concat blocks) = block.
Proof.
  intros Hnd H. induction H as [| k block keys blocks Hk Hrest IH];
    intros Hin; [contradiction | ].
  inversion Hnd as [| ? ? Hnotin Hnd']; subst.
  cbn [List.concat combine]. rewrite filter_app.
  destruct (String.eqb_spec k ty) as [-> | Hne].
  - exists block. split; [left; reflexivity | ].
    rewrite (filter_own_type ty block Hk),
            (filter_other_blocks ty keys blocks Hnotin Hrest).
    apply app_nil_r.
  - destruct Hin as [Heq | Hin]; [contradiction | ].
    destruct (IH Hnd' Hin) as (b & Hb & Hfilter).
    exists b. split; [right; exact Hb | ].
    rewrite (filter_other_type ty k block Hne Hk). exact Hfilter.
Qed.

Lemma Forall2_combine {A B} (R : A -> B -> Prop) (l : list A) (l' : list B)
    (a : A) (b : B) :
  Forall2 R l l' -> In (a, b) (combine l l') -> R a b.
Proof.
  induction 1 as [| x y l l' Hxy _ IH]; cbn [combine]; [contradiction | ].
  intros [Heq | Hin]; [injection Heq as <- <-; exact Hxy | auto].
Qed.

(** The rows of type [ty] in what [_getMidDates] returns are, in their
    order, what the loop body made of that type's subgroup. *)
Lemma getMidDates_rows_of_type (df d : list (row number)) (ty : string) :
  _getMidDates df = Ok d -> In ty (map type df) ->
  mid_dates_of_type df ty
  = Ok (filter (fun r => String.eqb (type r) ty) d).
Proof.
  intros H Hty. unfold _getMidDates in H.
  apply bind_Ok_inv in H as (blocks & Hall & Hcat).
  assert (Hd : d = List.concat blocks).
  { destruct blocks; [discriminate | ]. cbn in Hcat. injection Hcat as <-.
    reflexivity. }
  subst d. apply mapM_Ok_Forall2 in Hall.
  assert (Htypes : Forall2 (fun k block => Forall (fun r => type r = k) block)
                           (unique (map type df)) blocks).
  { apply (Forall2_refine _ _ _ _ Hall). intros k block Hk Hmid.
    apply (proj1 (unique_In _ _)) in Hk.
    destruct (mid_dates_of_type_rows df k Hk) as (block' & Hmid' & Hrows).
    rewrite Hmid in Hmid'. injection Hmid' as <-.
    apply Forall_forall. intros r' Hr'.
    destruct (Forall2_in_right _ _ _ _ Hrows Hr') as (r0 & Hr0 & [Hsame _]).
    apply type_subgroup_In in Hr0 as [_ Hty0].
    unfold same_sample in Hsame. rewrite Hsame. exact Hty0. }
  destruct (filter_finds_block ty _ _ (unique_from_NoDup [] _) Htypes)
    as (block & Hblock & Hfilter);
    [apply (proj2 (unique_In _ _)), Hty | ].
  rewrite Hfilter. exact (Forall2_combine _ _ _ _ _ Hall Hblock).
Qed.

Lemma subgroup_type_present (df : list (row number)) (ty : string) :
  (1 <= List.length (type_subgroup df ty))%nat -> In ty (map type df).
Proof.
  destruct (type_subgroup df ty) as [| r g] eqn:Hg; cbn; [lia | ]. intros _.
  assert (Hr : In r (type_subgroup df ty)) by (rewrite Hg; left; reflexivity).
  apply type_subgroup_In in Hr as [Hr <-]. apply in_map, Hr.
Qed.

(** On a subgroup of two or more, the rows of that type in the result are
    the sorted subgroup with its boundaries laid out by [partition_from]. *)
Lemma getMidDates_long_subgroup (df d : list (row number)) (ty : string)
    (r0 r1 : row number) (g : list (row number)) :
  _getMidDates df = Ok d ->
  type_subgroup df ty = r0 :: r1 :: g ->
  filter (fun r => String.eqb (type r) ty) d
  = partition_from (startDate r0) (r0 :: r1 :: g).
Proof.
  intros H Hg.
  assert (Hty : In ty (map type df))
    by (apply subgroup_type_present; rewrite Hg; cbn; lia).
  pose proof (getMidDates_rows_of_type df d ty H Hty) as Hrows.
  rewrite (mid_dates_of_type_long df ty r0 r1 g Hg) in Hrows.
  injection Hrows as <-. reflexivity.
Qed.

(** C6.  Whenever [_getMidDates] returns, then for every type whose
    subgroup, sorted by [startDate], has two or more rows, the rows of
    that type in the result are that subgroup, in that order and otherwise
    as they were, and: the first row opens at its own [startDate]; every
    row closes exactly where its successor opens, at the midpoint
    [start_i + (start_{i+1} - start_i) / 2] of their [startDate]s; and no
    row closes before it opens, so the boundaries never decrease. *)
Theorem midpoint_contiguity (df d : list (row number)) (ty : string) :
  _getMidDates df = Ok d ->
  (2 <= List.length (type_subgroup df ty))%nat ->
  exists block,
    block = filter (fun r => String.eqb (type r) ty) d
    /\ mid_dates_of_type df ty = Ok block
    /\ Forall2 same_sample (type_subgroup df ty) block
    /\ (forall r, nth_error block 0 = Some r ->
                  midStartDate r = Some (startDate r))
    /\ (forall i r r',
          nth_error block i = Some r -> nth_error block (S i) = Some r' ->
          midEndDate r = midStartDate r'
          /\ exists m, midEndDate r = Some m
               /\ ns m = ns (startDate r)
                         + (ns (startDate r') - ns (startDate r)) / 2)
    /\ (forall r, In r block ->
          exists a c, midStartDate r = Some a /\ midEndDate r = Some c
                      /\ ns a <= ns c).
Proof.
  intros Hd Hlen.
  destruct (two_or_more _ Hlen) as (r0 & r1 & g & Hg).
  pose proof (sort_values_sorted
                (filter (fun r => String.eqb (type r) ty) df)) as Hsorted.
  fold (type_subgroup df ty) in Hsorted. rewrite Hg in Hsorted.
  exists (filter (fun r => String.eqb (type r) ty) d).
  split; [reflexivity | ].
  rewrite (getMidDates_long_subgroup df d ty r0 r1 g Hd Hg), Hg.
  split; [apply mid_dates_of_type_long, Hg | ].
  split; [apply partition_from_same_sample | ].
  split.
  { intros r Hr. cbn in Hr. injection Hr as <-. reflexivity. }
  split.
  { intros i r r'. apply partition_from_adjacent. }
  apply partition_from_ordered; [exact Hsorted | lia].
Qed.

(** C1, as the code has it.  Whenever [_getMidDates] returns, then for
    every type whose sorted subgroup has two or more rows, the rows of that
    type in the result are that subgroup in its order, and the last of them
    is assigned its own raw [startDate] as [midEndDate]. *)
Theorem last_midEndDate_is_own_startDate (df d : list (row number))
    (ty : string) :
  _getMidDates df = Ok d ->
  (2 <= List.length (type_subgroup df ty))%nat ->
  exists block r,
    block = filter (fun x => String.eqb (type x) ty) d
    /\ mid_dates_of_type df ty = Ok block
    /\ Forall2 same_sample (type_subgroup df ty) block
    /\ List.length block = List.length (type_subgroup df ty)
    /\ nth_error block (List.length block - 1) = Some r
    /\ midEndDate r = Some (startDate r).
Proof.
  intros Hd Hlen.
  destruct (two_or_more _ Hlen) as (r0 & r1 & g & Hg).
  pose proof (getMidDates_long_subgroup df d ty r0 r1 g Hd Hg) as Hblock.
  set (p := partition_from (startDate r0) (r0 :: r1 :: g)) in *.
  assert (Hl : List.length p = List.length (r0 :: r1 :: g))
    by apply partition_from_length.
  destruct (nth_error p (List.length p - 1)) as [r | ] eqn:Hr.
  - exists p, r. rewrite Hg.
    split; [symmetry; exact Hblock | ].
    split; [apply mid_dates_of_type_long, Hg | ].
    split; [apply partition_from_same_sample | ].
    split; [exact Hl | ]. split; [exact Hr | ].
    apply (partition_from_closes (startDate r0) (r0 :: r1 :: g)
                                 (List.length p - 1)); [exact Hr | ].
    apply nth_error_None. fold p. lia.
  - apply nth_error_None in Hr. cbn [List.length] in Hl. lia.
Qed.

(** X4.  Whenever [_getMidDates] returns, then for every type whose
    sorted subgroup has two or more rows, each row of that type in the
    result has its own [startDate] within the boundaries assigned to it:
    [midStartDate <= startDate <= midEndDate]. *)
Theorem own_start_inside_boundaries (df d : list (row number)) (ty : string) :
  _getMidDates df = Ok d ->
  (2 <= List.length (type_subgroup df ty))%nat ->
  mid_dates_of_type df ty = Ok (filter (fun r => String.eqb (type r) ty) d)
  /\ List.length (filter (fun r => String.eqb (type r) ty) d)
     = List.length (type_subgroup df ty)
  /\ Forall starts_inside (filter (fun r => String.eqb (type r) ty) d).
Proof.
  intros Hd Hlen.
  destruct (two_or_more _ Hlen) as (r0 & r1 & g & Hg).
  pose proof (sort_values_sorted
                (filter (fun r => String.eqb (type r) ty) df)) as Hsorted.
  fold (type_subgroup df ty) in Hsorted. rewrite Hg in Hsorted.
  rewrite (getMidDates_long_subgroup df d ty r0 r1 g Hd Hg), Hg.
  split; [apply mid_dates_of_type_long, Hg | ].
  split; [apply partition_from_length | ].
  apply partition_from_inside; [exact Hsorted | lia].
Qed.

(** The frame a qualifying window adds to the output is what
    [_getMidDates] returns on the window's rows, tagged. *)
Lemma join_step_frame (health_df : list (row number))
    (res res' : list (list (row number))) (wid : string) (w : workout_times)
    (g : list (row number)) :
  select_contained health_df w = Ok g ->
  contains "VO2Max" (unique (map type g)) = true ->
  join_step health_df res (wid, w) = Ok res' ->
  exists d, res' = res ++ [d]
            /\ _getMidDates (map (set_workout_date wid) g) = Ok d.
Proof.
  intros Hsel Hgate. unfold join_step. rewrite Hsel. cbn [bind Ok]. cbv zeta.
  rewrite Hgate. intros H. apply bind_Ok_inv in H as (d & Hd & H).
  injection H as <-. eauto.
Qed.

End PartitionerResult.

(* ================================================================= *)
(** ** More on Encoding B *)

Lemma timezone_minutes_in_range (m : Z) :
  -1440 < m < 1440 -> timezone_minutes m = Ok m.
Proof.
  intros Hm. unfold timezone_minutes.
  destruct (Z.ltb_spec (-1440) m); destruct (Z.ltb_spec m 1440);
    try lia; reflexivity.
Qed.

Lemma timezone_minutes_out_of_range (m : Z) :
  m <= -1440 \/ 1440 <= m -> timezone_minutes m = Raise ValueError_timezone.
Proof.
  intros Hm. unfold timezone_minutes.
  destruct (Z.ltb_spec (-1440) m); destruct (Z.ltb_spec m 1440);
    try lia; reflexivity.
Qed.

(** The parse of a string in the layout, up to the check of the offset:
    the character before the offset is never looked at, and the one at its
    head only compared with ["-"]. *)
Lemma parse_encoding_B_with (dt : datetime) (sep sign : ascii) (oh om : Z) :
  check_fields (year dt) (month dt) (day dt)
               (hour dt) (minute dt) (second dt) 0 = true ->
  0 <= oh <= 99 -> 0 <= om <= 99 ->
  _parse_date_with_offset (encoding_B_with dt sep sign oh om)
  = (tz <- timezone_minutes
             (if Ascii.eqb sign "-"%char then - (oh * 60 + om)
              else oh * 60 + om) ;;
     Ok (mk_datetime (year dt) (month dt) (day dt)
                     (hour dt) (minute dt) (second dt) 0 (Some tz))).
Proof.
  intros Hc Hoh Hom. unfold _parse_date_with_offset.
  change (Py.drop_last 6 (encoding_B_with dt sep sign oh om)) with (strftime dt).
  change (Py.take_last 5 (encoding_B_with dt sep sign oh om))
    with (Py.str (sign :: two_digits oh ++ two_digits om)).
  rewrite strptime_strftime by exact Hc. cbn [bind Ok].
  change (Py.slice 1 3 (Py.str (sign :: two_digits oh ++ two_digits om)))
    with (Py.str (two_digits oh)).
  change (Py.slice 3 5 (Py.str (sign :: two_digits oh ++ two_digits om)))
    with (Py.str (two_digits om)).
  rewrite !int_two_digits by lia. cbn [bind Ok].
  change (Py.first_char (Py.str (sign :: two_digits oh ++ two_digits om)))
    with (Ok sign).
  cbn [bind Ok].
  destruct (Ascii.eqb sign "-"%char);
    (destruct (timezone_minutes _); [reflexivity | ]);
    reflexivity.
Qed.

Lemma encoding_B_as_with (dt : datetime) (negative : bool) (oh om : Z) :
  encoding_B dt negative oh om
  = encoding_B_with dt " "%char (if negative then "-"%char else "+"%char) oh om.
Proof. destruct negative; reflexivity. Qed.

(** X6.  An offset of twenty-four hours or more is refused: the string
    has the layout, its digits are read, and the run stops at the
    construction of the time zone. *)
Theorem offset_of_a_day_is_refused (dt : datetime) (sep sign : ascii)
    (oh om : Z) :
  check_fields (year dt) (month dt) (day dt)
               (hour dt) (minute dt) (second dt) 0 = true ->
  0 <= oh <= 99 -> 0 <= om <= 99 -> 1440 <= oh * 60 + om ->
  _parse_date_with_offset (encoding_B_with dt sep sign oh om)
  = Raise ValueError_timezone.
Proof.
  intros Hc Hoh Hom Hbig. rewrite parse_encoding_B_with by assumption.
  rewrite timezone_minutes_out_of_range; [reflexivity | ].
  destruct (Ascii.eqb sign "-"%char); lia.
Qed.

(** X7.  The sign is only ever compared with ["-"], and the character
    between time and offset is not checked at all: with any other
    character in the sign's place, and any character as separator, the
    string is accepted and the offset taken as positive. *)
Theorem sign_and_separator_not_checked (dt : datetime) (sep sign : ascii)
    (oh om : Z) :
  check_fields (year dt) (month dt) (day dt)
               (hour dt) (minute dt) (second dt) 0 = true ->
  0 <= oh <= 23 -> 0 <= om <= 59 ->
  Ascii.eqb sign "-"%char = false ->
  _parse_date_with_offset (encoding_B_with dt sep sign oh om)
  = Ok (mk_datetime (year dt) (month dt) (day dt)
                    (hour dt) (minute dt) (second dt) 0 (Some (oh * 60 + om))).
Proof.
  intros Hc Hoh Hom Hsign. rewrite parse_encoding_B_with by (assumption || lia).
  rewrite Hsign. rewrite timezone_minutes_in_range by lia. reflexivity.
Qed.

Lemma strptime_naive_whole_second (s : string) (dt : datetime) :
  Strptime.strptime s = Ok dt -> microsecond dt = 0 /\ tzinfo dt = None.
Proof.
  unfold Strptime.strptime.
  destruct (Strptime.fields (Py.chars s)) as [[[[[[y mo] d] h] mi] sec] | ];
    [ | discriminate].
  destruct (check_fields y mo d h mi sec 0); [ | discriminate].
  intros H. injection H as <-. split; reflexivity.
Qed.

(** What [_parse_date_with_offset] returns is timezone-aware, at an
    offset of less than a day, and has no fraction of a second. *)
Lemma parse_date_with_offset_shape (s : string) (dt : datetime) :
  _parse_date_with_offset s = Ok dt ->
  microsecond dt = 0 /\ exists off, tzinfo dt = Some off /\ -1440 < off < 1440.
Proof.
  unfold _parse_date_with_offset. intros H.
  apply bind_Ok_inv in H as (dt0 & Hdt0 & H).
  apply bind_Ok_inv in H as (hh & _ & H).
  apply bind_Ok_inv in H as (mm & _ & H).
  apply bind_Ok_inv in H as (sign & _ & H).
  apply bind_Ok_inv in H as (tz & Htz & H).
  injection H as <-.
  apply strptime_naive_whole_second in Hdt0 as [Hus _].
  split; [exact Hus | ]. exists tz. split; [reflexivity | ].
  unfold timezone_minutes in Htz.
  destruct (Z.ltb_spec (-1440) (if Ascii.eqb sign "-"%char
                                then - (hh * 60 + mm) else hh * 60 + mm));
    destruct (Z.ltb_spec (if Ascii.eqb sign "-"%char
                          then - (hh * 60 + mm) else hh * 60 + mm) 1440);
    cbn in Htz; try discriminate.
  injection Htz as <-. lia.
Qed.

Lemma Timestamp_whole_second (dt : datetime) :
  microsecond dt = 0 ->
  exists k, ns (Timestamp_of_datetime dt) = 1000000000 * k.
Proof.
  intros Hus. unfold Timestamp_of_datetime. cbn [ns]. rewrite Hus.
  exists ((((ymd2ord (year dt) (month dt) (day dt) - epoch_ordinal) * 24
            + hour dt) * 60 + minute dt - utcoffset dt) * 60 + second dt).
  ring.
Qed.

(** X8.  Between two instants read from Encoding B the midpoint is exact:
    such instants are whole seconds, so halving their distance in
    nanoseconds leaves no remainder, and the midpoint is displayed at the
    offset of the earlier row. *)
Theorem midpoint_is_exact_on_encoding_B (s1 s2 : string) (a b : datetime) :
  _parse_date_with_offset s1 = Ok a ->
  _parse_date_with_offset s2 = Ok b ->
  exists m,
    mid_date (Some (Timestamp_of_datetime b)) (Timestamp_of_datetime a) = Some m
    /\ 2 * ns m = ns (Timestamp_of_datetime a) + ns (Timestamp_of_datetime b)
    /\ tz m = tzinfo a.
Proof.
  intros Ha Hb.
  apply parse_date_with_offset_shape in Ha as [Ha _].
  apply parse_date_with_offset_shape in Hb as [Hb _].
  destruct (Timestamp_whole_second a Ha) as (ka & Hka).
  destruct (Timestamp_whole_second b Hb) as (kb & Hkb).
  eexists. split; [reflexivity | ]. cbn [ns tz]. split; [ | reflexivity].
  rewrite Hka, Hkb. zdiv.
Qed.

Section EncodingsAgree.

Variable fromisoformat : string -> result datetime.

(** X9.  The two encodings name instants on one scale: a track time and a
    health-table time with the same wall-clock fields differ by exactly
    the offset written in the latter, so at offset zero they are the same
    instant. *)
Theorem encodings_on_one_scale (time_string : string) (wall dt : datetime)
    (negative : bool) (oh om : Z) :
  valid_fields dt oh om ->
  fromisoformat (Py.rstrip_char "Z" time_string) = Ok wall ->
  replace_tzinfo wall None
  = mk_datetime (year dt) (month dt) (day dt)
                (hour dt) (minute dt) (second dt) 0 None ->
  exists u r,
    gpx_time_string_to_datetime fromisoformat time_string = Ok u
    /\ _parse_date_with_offset (encoding_B dt negative oh om) = Ok r
    /\ ns (Timestamp_of_datetime r)
       = ns (Timestamp_of_datetime u)
         - signed_offset negative oh om * 60000000000.
Proof.
  intros (Hc & _ & Hoh & Hom) Hiso Hwall.
  unfold gpx_time_string_to_datetime. rewrite Hiso. cbn [bind Ok].
  unfold replace_tzinfo in Hwall. injection Hwall as Hy Hmo Hd Hh Hmi Hs Hus.
  destruct negative.
  - change (encoding_B dt true oh om)
      with (encoding_B_with dt " "%char "-"%char oh om).
    rewrite parse_encoding_B_with by (assumption || lia).
    change (Ascii.eqb "-"%char "-"%char) with true. cbv iota.
    rewrite timezone_minutes_in_range by lia. cbn [bind Ok].
    do 2 eexists. split; [reflexivity | ]. split; [reflexivity | ].
    unfold Timestamp_of_datetime, replace_tzinfo, utcoffset, utc_pytz,
      signed_offset.
    cbn [ns year month day hour minute second microsecond tzinfo].
    rewrite Hy, Hmo, Hd, Hh, Hmi, Hs, Hus. ring.
  - change (encoding_B dt false oh om)
      with (encoding_B_with dt " "%char "+"%char oh om).
    rewrite parse_encoding_B_with by (assumption || lia).
    change (Ascii.eqb "+"%char "-"%char) with false. cbv iota.
    rewrite timezone_minutes_in_range by lia. cbn [bind Ok].
    do 2 eexists. split; [reflexivity | ]. split; [reflexivity | ].
    unfold Timestamp_of_datetime, replace_tzinfo, utcoffset, utc_pytz,
      signed_offset.
    cbn [ns year month day hour minute second microsecond tzinfo].
    rewrite Hy, Hmo, Hd, Hh, Hmi, Hs, Hus. ring.
Qed.

End EncodingsAgree.

(* ================================================================= *)
(** ** More on track files and the directory *)

Section TracksMore.

Variable fromisoformat : string -> result datetime.

Lemma chars_append (s1 s2 : string) :
  Py.chars (s1 ++ s2)%string = Py.chars s1 ++ Py.chars s2.
Proof.
  unfold Py.chars. induction s1 as [| c s1 IH]; cbn; [reflexivity | ].
  rewrite IH. reflexivity.
Qed.

Lemma rstrip_char_suffix (c : ascii) (s : string) :
  Py.rstrip_char c (s ++ String c EmptyString)%string = Py.rstrip_char c s.
Proof.
  unfold Py.rstrip_char. rewrite chars_append.
  change (Py.chars (String c EmptyString)) with [c].
  rewrite rev_app_distr. cbn [rev app Py.lstrip_char].
  rewrite Ascii.eqb_refl. reflexivity.
Qed.

(** X10.  The [Z] at the end of a track time is optional, and so is any
    number of them; what is read is always placed at UTC, whatever offset
    the reader may have found in the text. *)
Theorem zulu_suffix_is_optional (time_string : string) :
  gpx_time_string_to_datetime fromisoformat (time_string ++ "Z")%string
  = gpx_time_string_to_datetime fromisoformat time_string
  /\ (forall u, gpx_time_string_to_datetime fromisoformat time_string = Ok u ->
                tzinfo u = Some 0
                /\ exists w, fromisoformat (Py.rstrip_char "Z" time_string) = Ok w
                             /\ replace_tzinfo u None = replace_tzinfo w None).
Proof.
  split.
  - unfold gpx_time_string_to_datetime. rewrite rstrip_char_suffix. reflexivity.
  - unfold gpx_time_string_to_datetime. intros u H.
    apply bind_Ok_inv in H as (w & Hw & H). injection H as <-.
    split; [reflexivity | ]. exists w. split; [exact Hw | reflexivity].
Qed.

(** X11.  Only the first and the last time of a track are ever read: two
    tracks that agree on those two give the same window, or the same
    failure, whatever their other points hold. *)
Theorem only_first_and_last_are_read (gpx1 gpx2 : gpx_file) (t0 : string)
    (ts1 ts2 : list string) :
  all_timestamps gpx1 = t0 :: ts1 ->
  all_timestamps gpx2 = t0 :: ts2 ->
  last ts1 t0 = last ts2 t0 ->
  extract_times_from_gpx fromisoformat gpx1
  = extract_times_from_gpx fromisoformat gpx2.
Proof.
  intros H1 H2 Hlast. unfold extract_times_from_gpx.
  rewrite H1, H2, Hlast. reflexivity.
Qed.

Lemma dict_set_keys {V} (k : string) (v : V) (d : list (string * V)) (k' : string) :
  In k' (map fst (dict_set k v d)) <-> k' = k \/ In k' (map fst d).
Proof.
  induction d as [| [k0 v0] d IH]; cbn [dict_set].
  - cbn. intuition.
  - destruct (String.eqb_spec k0 k) as [-> | Hne]; cbn [map fst In].
    + intuition.
    + rewrite IH. intuition.
Qed.

Lemma dict_set_NoDup {V} (k : string) (v : V) (d : list (string * V)) :
  NoDup (map fst d) -> NoDup (map fst (dict_set k v d)).
Proof.
  induction d as [| [k0 v0] d IH]; cbn [dict_set]; intros Hnd.
  - cbn. constructor; [intros [] | constructor].
  - cbn [map fst] in Hnd. inversion Hnd as [| ? ? Hk0 Hnd']; subst.
    destruct (String.eqb_spec k0 k) as [-> | Hne]; cbn [map fst].
    + constructor; assumption.
    + constructor; [ | apply IH, Hnd'].
      intros Hin. apply dict_set_keys in Hin as [Heq | Hin]; auto.
Qed.

Lemma dict_set_Forall {V} (P : string * V -> Prop) (k : string) (v : V)
    (d : list (string * V)) :
  Forall P d -> P (k, v) -> Forall P (dict_set k v d).
Proof.
  induction 1 as [| [k0 v0] d H0 Hd IH]; cbn [dict_set]; intros Hkv.
  - constructor; [exact Hkv | constructor].
  - destruct (String.eqb k0 k); constructor; auto.
Qed.

Lemma process_routes_loop_inv (dir files : routes_dir)
    (results windows : list (string * workout_times)) :
  (forall f, In f files -> In f dir) ->
  process_routes_loop fromisoformat files results = Ok windows ->
  NoDup (map fst results) -> Forall (window_of_file fromisoformat dir) results ->
  NoDup (map fst windows)
  /\ Forall (window_of_file fromisoformat dir) windows
  /\ (forall k, In k (map fst windows) <->
                In k (map fst results)
                \/ (Py.endswith k ".gpx" = true /\ In k (map fst files))).
Proof.
  revert results. induction files as [| [name gpx] files IH];
    intros results Hsub Hrun Hnd Hall; cbn [process_routes_loop] in Hrun.
  - injection Hrun as <-. split; [exact Hnd | ]. split; [exact Hall | ].
    intros k. cbn. tauto.
  - assert (Hsub' : forall f, In f files -> In f dir)
      by (intros f Hf; apply Hsub; right; exact Hf).
    destruct (Py.endswith name ".gpx") eqn:Egpx.
    + apply bind_Ok_inv in Hrun as ([s e] & Hext & Hrun).
      cbn [fst snd] in Hrun.
      destruct (IH _ Hsub' Hrun) as (H1 & H2 & H3).
      * apply dict_set_NoDup, Hnd.
      * apply dict_set_Forall; [exact Hall | ].
        exists gpx. split; [apply Hsub; left; reflexivity | exact Hext].
      * split; [exact H1 | ]. split; [exact H2 | ].
        intros k. rewrite H3, dict_set_keys. cbn [map fst In].
        split.
        -- intros [[-> | Hk] | [Hk1 Hk2]]; auto.
        -- intros [Hk | [Hk1 [<- | Hk2]]]; auto.
    + destruct (IH _ Hsub' Hrun Hnd Hall) as (H1 & H2 & H3).
      split; [exact H1 | ]. split; [exact H2 | ].
      intros k. rewrite H3. cbn [map fst In]. split.
      * intros [Hk | [Hk1 Hk2]]; auto.
      * intros [Hk | [Hk1 [<- | Hk2]]]; auto. congruence.
Qed.

(** X12.  The mapping of workouts has one entry for each file name ending
    in [.gpx], no entry for any other name and no name twice; the window
    under a name is the one extracted from a file of that name. *)
Theorem routes_dir_entries (workout_routes_dir : routes_dir)
    (windows : list (string * workout_times)) :
  process_workout_routes_dir fromisoformat workout_routes_dir = Ok windows ->
  NoDup (map fst windows)
  /\ Forall (window_of_file fromisoformat workout_routes_dir) windows
  /\ (forall k, In k (map fst windows) <->
                Py.endswith k ".gpx" = true
                /\ In k (map fst workout_routes_dir)).
Proof.
  unfold process_workout_routes_dir. intros Hrun.
  destruct (process_routes_loop_inv workout_routes_dir workout_routes_dir
              [] windows (fun f Hf => Hf) Hrun) as (H1 & H2 & H3).
  - constructor.
  - constructor.
  - split; [exact H1 | ]. split; [exact H2 | ].
    intros k. rewrite H3. cbn. tauto.
Qed.

(** X13.  Files whose name does not end in [.gpx] are never opened: with
    or without them in the directory the outcome is the same, failures
    included. *)
Theorem other_files_are_never_read (workout_routes_dir : routes_dir) :
  process_workout_routes_dir fromisoformat
    (filter (fun f => Py.endswith (fst f) ".gpx") workout_routes_dir)
  = process_workout_routes_dir fromisoformat workout_routes_dir.
Proof.
  unfold process_workout_routes_dir.
  generalize (@nil (string * workout_times)) as results.
  induction workout_routes_dir as [| [name gpx] files IH]; intros results;
    [reflexivity | ].
  cbn [filter fst process_routes_loop].
  destruct (Py.endswith name ".gpx") eqn:Egpx; [ | apply IH].
  cbn [process_routes_loop]. rewrite Egpx.
  destruct (extract_times_from_gpx fromisoformat gpx) as [e | times];
    [reflexivity | ].
  cbn [bind]. apply IH.
Qed.

End TracksMore.

(* ================================================================= *)
(** ** More on the whole run *)

Section PipelineMore.

Context {number : Type}.
Variable to_numeric : string -> option number.
Variable fromisoformat : string -> result datetime.

Lemma numeric_rows_sorted (i : nat) (csv : list csv_record) :
  StronglySorted lt (map (fun k => fst (fst k)) (numeric_rows to_numeric i csv)).
Proof.
  revert i. induction csv as [| c csv IH]; intros i; cbn [numeric_rows];
    [constructor | ].
  destruct (to_numeric (csv_value c)) as [v | ]; [ | apply IH].
  cbn [map fst]. constructor; [apply IH | ].
  apply Forall_forall. intros j Hj.
  apply in_map_iff in Hj as ([[j' c'] v'] & <- & Hin).
  apply numeric_rows_In in Hin as (k & -> & _). cbn. lia.
Qed.

Lemma assemble_faithful (csv : list csv_record)
    (kept : list (nat * csv_record * number)) (starts ends : list datetime) :
  (forall k, In k kept -> nth_error csv (fst (fst k)) = Some (snd (fst k))) ->
  Forall2 (fun k s => _parse_date_with_offset (csv_startDate (snd (fst k))) = Ok s)
          kept starts ->
  Forall2 (fun k e => _parse_date_with_offset (csv_endDate (snd (fst k))) = Ok e)
          kept ends ->
  Forall (normalised_from csv) (assemble kept starts ends)
  /\ map index (assemble kept starts ends) = map (fun k => fst (fst k)) kept.
Proof.
  intros Hnth Hs. revert ends.
  induction Hs as [| [[i c] v] s kept starts Hks _ IH]; intros ends He.
  - inversion He; subst. split; [constructor | reflexivity].
  - inversion He as [| ? e ? ends' Hke He']; subst.
    destruct (IH (fun k Hk => Hnth k (or_intror Hk)) _ He') as [IH1 IH2].
    cbn [assemble map index fst]. split; [ | rewrite IH2; reflexivity].
    constructor; [ | exact IH1].
    exists c, s, e. cbn [index type others startDate endDate fst snd] in *.
    repeat split; try assumption.
    exact (Hnth (i, c, v) (or_introl eq_refl)).
Qed.

(** X14.  The prepared table keeps the lines in the order of the file,
    each under its line number, and every row says what its line says:
    the same type and other cells, and the instants its two date cells
    parse to. *)
Theorem prepared_rows_are_faithful (health_csv : list csv_record)
    (health_df : list (row number)) :
  prepare_health_data to_numeric health_csv = Ok health_df ->
  StronglySorted lt (map index health_df)
  /\ Forall (normalised_from health_csv) health_df.
Proof.
  unfold prepare_health_data. intros H.
  apply bind_Ok_inv in H as (starts & Hstarts & H).
  apply bind_Ok_inv in H as (ends & Hends & H).
  injection H as <-.
  apply mapM_Ok_Forall2 in Hstarts. apply mapM_Ok_Forall2 in Hends.
  assert (Hnth : forall k, In k (numeric_rows to_numeric 0 health_csv) ->
                           nth_error health_csv (fst (fst k)) = Some (snd (fst k))).
  { intros [[j c] v] Hin. apply numeric_rows_In in Hin as (n & -> & Hn & _).
    exact Hn. }
  destruct (assemble_faithful health_csv _ _ _ Hnth Hstarts Hends) as [H1 H2].
  split; [ | exact H1]. rewrite H2. apply numeric_rows_sorted.
Qed.

Lemma mapM_fails {A B} (f : A -> result B) (l : list A) (a : A) (e : exn) :
  In a l -> f a = Raise e -> exists e', mapM f l = Raise e'.
Proof.
  induction l as [| x l IH]; intros Hin Hfa; [contradiction | ].
  cbn [mapM]. destruct (f x) as [ex | b] eqn:Efx; [cbn; eauto | ].
  destruct Hin as [-> | Hin]; [unfold Raise in Hfa; congruence | ].
  destruct (IH Hin Hfa) as (e' & He'). rewrite He'. cbn. eauto.
Qed.

(** X15.  One date that cannot be read, in a line whose value is numeric,
    stops everything: preparing the table fails, and so does the run,
    whatever the directory of tracks holds. *)
Theorem unreadable_date_stops_the_run (health_csv : list csv_record)
    (c : csv_record) (v : number) (e : exn) :
  In c health_csv -> to_numeric (csv_value c) = Some v ->
  _parse_date_with_offset (csv_startDate c) = Raise e
  \/ _parse_date_with_offset (csv_endDate c) = Raise e ->
  (exists e', prepare_health_data to_numeric health_csv = Raise e')
  /\ (forall workout_routes_dir,
        exists e', filter_health_export to_numeric fromisoformat
                     workout_routes_dir health_csv = Raise e').
Proof.
  intros Hin Hv Hbad.
  assert (Hprep : exists e', prepare_health_data to_numeric health_csv = Raise e').
  { apply In_nth_error in Hin as (i & Hi).
    assert (Hk : In (i, c, v) (numeric_rows to_numeric 0 health_csv))
      by (apply numeric_rows_In; exists i; auto).
    unfold prepare_health_data.
    destruct (mapM (fun k => _parse_date_with_offset (csv_startDate (snd (fst k))))
                   (numeric_rows to_numeric 0 health_csv))
      as [es | starts] eqn:Es; [cbn; eauto | ].
    cbn [bind].
    destruct Hbad as [Hbad | Hbad].
    - destruct (mapM_fails
                  (fun k => _parse_date_with_offset (csv_startDate (snd (fst k))))
                  _ (i, c, v) e Hk Hbad) as (e' & He').
      unfold Raise in He'. congruence.
    - destruct (mapM_fails
                  (fun k => _parse_date_with_offset (csv_endDate (snd (fst k))))
                  _ (i, c, v) e Hk Hbad) as (e' & He').
      rewrite He'. cbn. eauto. }
  split; [exact Hprep | ]. intros dir. destruct Hprep as (e' & He').
  unfold filter_health_export.
  destruct (process_workout_routes_dir fromisoformat dir); [cbn; eauto | ].
  cbn [bind]. rewrite He'. cbn. eauto.
Qed.

Lemma filter_none {A} (f : A -> bool) (l : list A) :
  Forall (fun x => f x = false) l -> filter f l = [].
Proof.
  induction 1 as [| x l Hx _ IH]; cbn; [reflexivity | ].
  rewrite Hx. exact IH.
Qed.

(** X16.  A window that ends before it starts, as a track written latest
    first gives, selects nothing from a table whose samples do not end
    before they start: the workout is passed over without any error. *)
Theorem backwards_window_selects_nothing (health_df : list (row number))
    (w : workout_times) (ws we : datetime) (res : list (list (row number)))
    (wid : string) :
  wt_startDate w = Some ws -> wt_endDate w = Some we ->
  ns (Timestamp_of_datetime we) < ns (Timestamp_of_datetime ws) ->
  Forall well_formed health_df ->
  select_contained health_df w = Ok []
  /\ join_step health_df res (wid, w) = Ok res.
Proof.
  intros Hs He Hback Hwf.
  assert (Hsel : select_contained health_df w = Ok []).
  { rewrite (select_contained_defined health_df w ws we Hs He).
    rewrite filter_none; [reflexivity | ].
    apply (Forall_impl _ (P := well_formed)); [ | exact Hwf].
    intros s Hs'. unfold well_formed in Hs'. unfold contained_b.
    destruct (Z.leb_spec (ns (Timestamp_of_datetime ws)) (ns (startDate s)));
      destruct (Z.leb_spec (ns (endDate s)) (ns (Timestamp_of_datetime we)));
      try reflexivity. lia. }
  split; [exact Hsel | ].
  unfold join_step. rewrite Hsel. reflexivity.
Qed.

Lemma annotated_fields (wid : string) (h r : row number) :
  annotated wid h r -> type r = type h /\ workout_date r = Some wid.
Proof. intros (a & c & ->). split; reflexivity. Qed.

(** X17.  A run that succeeds has rows to show, and every workout that
    appears in its output appears there with a ["VO2Max"] row of its
    own. *)
Theorem every_workout_has_its_vo2max (workout_routes_dir : routes_dir)
    (health_csv : list csv_record) (out : list (row number)) :
  filter_health_export to_numeric fromisoformat workout_routes_dir health_csv
  = Ok out ->
  out <> [] /\ Forall (has_vo2max_of out) out.
Proof.
  unfold filter_health_export. intros Hrun.
  apply bind_Ok_inv in Hrun as (windows & _ & Hrun).
  apply bind_Ok_inv in Hrun as (health_df & _ & Hrun).
  apply bind_Ok_inv in Hrun as (res & Hloop & Hcat).
  destruct (join_loop_contributions _ _ _ _ Hloop) as (cs & Hres & Hcs).
  cbn [app] in Hres.
  assert (Hout : out = List.concat res).
  { destruct res; [discriminate | ]. cbn in Hcat. injection Hcat as <-.
    reflexivity. }
  assert (Hframe : forall d, In d res ->
                     d <> [] /\ Forall (has_vo2max_of d) d).
  { intros d Hd. rewrite Hres in Hd. apply in_concat in Hd as (c & Hc & Hd).
    destruct (Forall2_in_right _ _ _ _ Hcs Hc) as ([wid w] & _ & g & _ & Hg).
    destruct Hg as [[_ ->] | (Hgate & d' & -> & Hfwd & Hbwd)];
      [contradiction | ].
    destruct Hd as [<- | []]. cbn [fst] in Hfwd, Hbwd.
    apply (proj1 (unique_In _ _)), in_map_iff in Hgate as (h & Hty & Hh).
    destruct (Hfwd h Hh) as (v & Hv & Han & Hwd).
    apply annotated_fields in Han as [Hvty _].
    split; [intros ->; contradiction | ].
    apply Forall_forall. intros r Hr.
    destruct (Hbwd r Hr) as (_ & _ & _ & Hrwd).
    exists v. repeat split; [exact Hv | congruence | congruence]. }
  subst out. split.
  - destruct res as [| d0 res']; [discriminate | ].
    destruct (Hframe d0 (or_introl eq_refl)) as [Hne _].
    destruct d0; [congruence | discriminate].
  - apply Forall_forall. intros r Hr. apply in_concat in Hr as (d & Hd & Hr).
    destruct (Hframe d Hd) as [_ Hall]. rewrite Forall_forall in Hall.
    destruct (Hall r Hr) as (v & Hv & Hty & Hwd).
    exists v. split; [apply in_concat; eauto | auto].
Qed.

Lemma join_step_size (health_df : list (row number))
    (res res' : list (list (row number))) (item : string * workout_times) :
  join_step health_df res item = Ok res' ->
  List.length (List.concat res')
  = (List.length (List.concat res) + rows_contributed health_df item)%nat.
Proof.
  destruct item as [wid w]. unfold join_step, rows_contributed. cbn [snd].
  destruct (select_contained health_df w) as [e | g]; [discriminate | ].
  cbn [bind]. cbv zeta.
  destruct (contains "VO2Max" (unique (map type g))).
  - intros H. apply bind_Ok_inv in H as (d & Hd & H). injection H as <-.
    apply getMidDates_length in Hd. rewrite length_map in Hd.
    rewrite concat_app, length_app. cbn [List.concat]. rewrite app_nil_r.
    rewrite Hd. reflexivity.
  - intros H. injection H as <-. lia.
Qed.

Lemma join_loop_size (health_df : list (row number))
    (items : list (string * workout_times)) (res res' : list (list (row number))) :
  join_loop health_df res items = Ok res' ->
  List.length (List.concat res')
  = (List.length (List.concat res)
     + list_sum (map (rows_contributed health_df) items))%nat.
Proof.
  revert res. induction items as [| item items IH]; cbn [join_loop]; intros res H.
  - injection H as <-. cbn. lia.
  - apply bind_Ok_inv in H as (res1 & Hstep & H).
    rewrite (IH _ H), (join_step_size _ _ _ _ Hstep).
    unfold list_sum. cbn [map fold_right]. lia.
Qed.

(** X18.  The output has one row for every sample of every qualifying
    window: its length is the sum, over the windows, of the number of rows
    each contains if it has a ["VO2Max"] row; a sample inside two such
    windows is written twice. *)
Theorem output_size (workout_routes_dir : routes_dir)
    (health_csv : list csv_record)
    (windows : list (string * workout_times))
    (health_df out : list (row number)) :
  process_workout_routes_dir fromisoformat workout_routes_dir = Ok windows ->
  prepare_health_data to_numeric health_csv = Ok health_df ->
  filter_health_export to_numeric fromisoformat workout_routes_dir health_csv
  = Ok out ->
  List.length out = list_sum (map (rows_contributed health_df) windows).
Proof.
  intros Hdir Hprep Hrun. unfold filter_health_export in Hrun.
  rewrite Hdir, Hprep in Hrun. cbn [bind Ok] in Hrun.
  apply bind_Ok_inv in Hrun as (res & Hloop & Hcat).
  apply join_loop_size in Hloop. cbn in Hloop.
  destruct res; [discriminate | ]. cbn in Hcat. injection Hcat as <-.
  exact Hloop.
Qed.

End PipelineMore.

(* ================================================================= *)
(** ** The further properties on examples *)

Lemma getMidDates_keeps_rows_witness :
  Permutation (map clear_mids scenario_partitioned)
              (map clear_mids scenario_health_df)
  /\ List.length scenario_partitioned = List.length scenario_health_df.
Proof.
  apply (getMidDates_keeps_rows scenario_health_df scenario_partitioned).
  vm_compute. reflexivity.
Defined.

Lemma getMidDates_blocks_in_order_witness :
  exists blocks,
    scenario_partitioned = List.concat blocks
    /\ Forall2 type_block (unique (map type scenario_health_df)) blocks.
Proof.
  apply (getMidDates_blocks_in_order scenario_health_df scenario_partitioned).
  vm_compute. reflexivity.
Defined.

Lemma single_sample_identity_witness :
  In (set_midEndDate
        (Some (mk_Timestamp 1704103560000000000 (Some 0)))
        (set_midStartDate
           (Some (mk_Timestamp 1704103500000000000 (Some 0)))
           (mk_row 0%nat "VO2Max" 40
                   (mk_Timestamp 1704103500000000000 (Some 0))
                   (mk_Timestamp 1704103560000000000 (Some 0))
                   ["ml/min/kg"] None None None)))
     scenario_partitioned.
Proof.
  apply (single_sample_identity scenario_health_df scenario_partitioned
           (mk_row 0%nat "VO2Max" 40
                   (mk_Timestamp 1704103500000000000 (Some 0))
                   (mk_Timestamp 1704103560000000000 (Some 0))
                   ["ml/min/kg"] None None None)).
  - vm_compute. reflexivity.
  - vm_compute. reflexivity.
Defined.

Lemma offset_of_a_day_is_refused_witness :
  _parse_date_with_offset "2023-02-28 07:08:09 +2400"
  = Raise ValueError_timezone.
Proof.
  apply (offset_of_a_day_is_refused (mk_datetime 2023 2 28 7 8 9 0 None)
           " "%char "+"%char 24 0).
  - reflexivity.
  - lia.
  - lia.
  - lia.
Defined.

Lemma sign_and_separator_not_checked_witness :
  _parse_date_with_offset "2023-11-06 07:08:09Tx0530"
  = Ok (mk_datetime 2023 11 6 7 8 9 0 (Some (5 * 60 + 30))).
Proof.
  apply (sign_and_separator_not_checked (mk_datetime 2023 11 6 7 8 9 0 None)
           "T"%char "x"%char 5 30).
  - reflexivity.
  - lia.
  - lia.
  - reflexivity.
Defined.

Lemma midpoint_is_exact_on_encoding_B_witness :
  exists m,
    mid_date
      (Some (Timestamp_of_datetime (mk_datetime 2024 1 1 10 20 1 0 (Some 60))))
      (Timestamp_of_datetime (mk_datetime 2024 1 1 10 10 0 0 (Some 0)))
    = Some m
    /\ 2 * ns m
       = ns (Timestamp_of_datetime (mk_datetime 2024 1 1 10 10 0 0 (Some 0)))
         + ns (Timestamp_of_datetime (mk_datetime 2024 1 1 10 20 1 0 (Some 60)))
    /\ tz m = tzinfo (mk_datetime 2024 1 1 10 10 0 0 (Some 0)).
Proof.
  apply (midpoint_is_exact_on_encoding_B
           "2024-01-01 10:10:00 +0000" "2024-01-01 10:20:01 +0100").
  - reflexivity.
  - reflexivity.
Defined.

Lemma encodings_on_one_scale_witness :
  exists u r,
    gpx_time_string_to_datetime fromisoformat_seconds "2024-01-01T10:00:00Z"
    = Ok u
    /\ _parse_date_with_offset "2024-01-01 10:00:00 +0100" = Ok r
    /\ ns (Timestamp_of_datetime r)
       = ns (Timestamp_of_datetime u) - signed_offset false 1 0 * 60000000000.
Proof.
  apply (encodings_on_one_scale fromisoformat_seconds "2024-01-01T10:00:00Z"
           (mk_datetime 2024 1 1 10 0 0 0 None)
           (mk_datetime 2024 1 1 10 0 0 0 None) false 1 0).
  - unfold valid_fields. cbn. lia.
  - reflexivity.
  - reflexivity.
Defined.

Lemma only_first_and_last_are_read_witness :
  extract_times_from_gpx fromisoformat_seconds run1_gpx
  = extract_times_from_gpx fromisoformat_seconds garbled_gpx.
Proof.
  apply (only_first_and_last_are_read fromisoformat_seconds
           run1_gpx garbled_gpx "2024-01-01T10:00:00Z"
           ["2024-01-01T10:12:00Z"; "2024-01-01T10:30:00Z"]
           ["half past ten"; "2024-01-01T10:30:00Z"]).
  - reflexivity.
  - reflexivity.
  - reflexivity.
Defined.

Lemma routes_dir_entries_witness :
  NoDup (map fst [("run1.gpx", run1_window)])
  /\ Forall (window_of_file fromisoformat_seconds mixed_dir)
            [("run1.gpx", run1_window)]
  /\ (forall k, In k (map fst [("run1.gpx", run1_window)]) <->
                Py.endswith k ".gpx" = true /\ In k (map fst mixed_dir)).
Proof.
  apply (routes_dir_entries fromisoformat_seconds mixed_dir).
  vm_compute. reflexivity.
Defined.

Lemma prepared_rows_are_faithful_witness :
  StronglySorted lt (map index dirty_health_df)
  /\ Forall (normalised_from dirty_csv) dirty_health_df.
Proof.
  apply (prepared_rows_are_faithful to_numeric_int dirty_csv).
  vm_compute. reflexivity.
Defined.

Lemma unreadable_date_stops_the_run_witness :
  (exists e', prepare_health_data to_numeric_int broken_csv = Raise e')
  /\ (forall workout_routes_dir,
        exists e', filter_health_export to_numeric_int fromisoformat_seconds
                     workout_routes_dir broken_csv = Raise e').
Proof.
  apply (unreadable_date_stops_the_run to_numeric_int fromisoformat_seconds
           broken_csv
           (mk_csv_record "VO2Max" "40" "2024-01-01 10:05:00 +0000"
                          "2024-01-01 10:06" [])
           40 ValueError_strptime).
  - left. reflexivity.
  - reflexivity.
  - right. reflexivity.
Defined.

Lemma backwards_window_selects_nothing_witness :
  select_contained scenario_health_df backwards_window = Ok []
  /\ join_step scenario_health_df [] ("back.gpx", backwards_window) = Ok [].
Proof.
  apply (backwards_window_selects_nothing scenario_health_df backwards_window
           (mk_datetime 2024 1 1 10 30 0 0 (Some 0))
           (mk_datetime 2024 1 1 10 0 0 0 (Some 0))).
  - reflexivity.
  - reflexivity.
  - vm_compute. reflexivity.
  - repeat constructor; unfold well_formed; vm_compute; discriminate.
Defined.

Lemma every_workout_has_its_vo2max_witness :
  twice_out <> [] /\ Forall (has_vo2max_of twice_out) twice_out.
Proof.
  apply (every_workout_has_its_vo2max to_numeric_int fromisoformat_seconds
           twice_dir scenario_csv).
  vm_compute. reflexivity.
Defined.

Lemma output_size_witness :
  List.length twice_out
  = list_sum (map (rows_contributed scenario_health_df)
                  [("run1.gpx", run1_window); ("again.gpx", run1_window)]).
Proof.
  apply (output_size to_numeric_int fromisoformat_seconds twice_dir scenario_csv).
  - vm_compute. reflexivity.
  - vm_compute. reflexivity.
  - vm_compute. reflexivity.
Defined.

(** Two windows over the same three samples: six rows. *)
Example twice_out_rows :
  map (fun r => (workout_date r, index r)) twice_out
  = [ (Some "run1.gpx", 0%nat); (Some "run1.gpx", 1%nat); (Some "run1.gpx", 2%nat);
      (Some "again.gpx", 0%nat); (Some "again.gpx", 1%nat); (Some "again.gpx", 2%nat) ].
Proof. vm_compute. reflexivity. Qed.

(* ================================================================= *)
(** ** Window bounds and the failures of the join *)

Section Failures.

Context {number : Type}.
Variable to_numeric : string -> option number.
Variable fromisoformat : string -> result datetime.

(** X19.  A window has both bounds or neither: neither exactly when the
    track has no point with a time, and otherwise both, each a
    timezone-aware datetime at UTC. *)
Theorem window_bounds_come_in_pairs (gpx : gpx_file)
    (s e : option datetime) :
  extract_times_from_gpx fromisoformat gpx = Ok (s, e) ->
  (all_timestamps gpx = [] /\ s = None /\ e = None)
  \/ (all_timestamps gpx <> []
      /\ exists a b, s = Some a /\ e = Some b
                     /\ tzinfo a = Some 0 /\ tzinfo b = Some 0).
Proof.
  unfold extract_times_from_gpx.
  destruct (all_timestamps gpx) as [| t0 ts]; intros H.
  - injection H as <- <-. left. auto.
  - right. split; [discriminate | ].
    apply bind_Ok_inv in H as (a & Ha & H).
    apply bind_Ok_inv in H as (b & Hb & H).
    injection H as <- <-. exists a, b.
    unfold gpx_time_string_to_datetime in Ha, Hb.
    apply bind_Ok_inv in Ha as (a0 & _ & Ha). injection Ha as <-.
    apply bind_Ok_inv in Hb as (b0 & _ & Hb). injection Hb as <-.
    auto.
Qed.

Lemma join_loop_failure (health_df : list (row number))
    (items : list (string * workout_times)) (res : list (list (row number)))
    (e : exn) :
  Forall (fun item => exists ws we, wt_startDate (snd item) = Some ws
                                    /\ wt_endDate (snd item) = Some we) items ->
  join_loop health_df res items = Raise e ->
  exists wid w g,
    In (wid, w) items
    /\ select_contained health_df w = Ok g
    /\ In "VO2Max" (unique (map type g))
    /\ _getMidDates (map (set_workout_date wid) g) = Raise e.
Proof.
  intros Hall. revert res.
  induction Hall as [| [wid w] items (ws & we & Hs & He) _ IH]; intros res H;
    cbn [join_loop] in H; [discriminate | ].
  cbn [snd] in Hs, He.
  pose proof (select_contained_defined health_df w ws we Hs He) as Hsel.
  unfold join_step in H. rewrite Hsel in H. cbn [bind Ok] in H. cbv zeta in H.
  destruct (contains "VO2Max"
              (unique (map type (filter (contained_b ws we) health_df))))
    eqn:Hgate.
  - destruct (_getMidDates
                (map (set_workout_date wid)
                     (filter (contained_b ws we) health_df)))
      as [e' | d] eqn:Hmid.
    + cbn in H. injection H as <-.
      exists wid, w, (filter (contained_b ws we) health_df).
      split; [left; reflexivity | ]. split; [exact Hsel | ].
      split; [apply contains_In, Hgate | exact Hmid].
    + cbn [bind Ok] in H. destruct (IH _ H) as (wid' & w' & g & Hin & Hrest).
      exists wid', w', g. split; [right; exact Hin | exact Hrest].
  - cbn [bind Ok] in H. destruct (IH _ H) as (wid' & w' & g & Hin & Hrest).
    exists wid', w', g. split; [right; exact Hin | exact Hrest].
Qed.

(** X20.  Once the tracks and the table have been read, and every window
    has both bounds, the comparisons of the join never fail: every window
    selects its rows, and a run that fails does so either for lack of a
    qualifying workout, with the error of [pd.concat] over no frames, or
    with an error that [_getMidDates] raised on the rows of a window that
    has a ["VO2Max"] row. *)
Theorem bounded_windows_never_stop_the_join (workout_routes_dir : routes_dir)
    (health_csv : list csv_record)
    (windows : list (string * workout_times)) (health_df : list (row number)) :
  process_workout_routes_dir fromisoformat workout_routes_dir = Ok windows ->
  prepare_health_data to_numeric health_csv = Ok health_df ->
  Forall (fun item => exists ws we, wt_startDate (snd item) = Some ws
                                    /\ wt_endDate (snd item) = Some we)
         windows ->
  Forall (fun item => exists g, select_contained health_df (snd item) = Ok g)
         windows
  /\ (forall e,
        filter_health_export to_numeric fromisoformat
          workout_routes_dir health_csv = Raise e ->
        e = ValueError_no_objects_to_concatenate
        \/ exists wid w g,
             In (wid, w) windows
             /\ select_contained health_df w = Ok g
             /\ In "VO2Max" (unique (map type g))
             /\ _getMidDates (map (set_workout_date wid) g) = Raise e).
Proof.
  intros Hdir Hprep Hall. split.
  - apply (Forall_impl _ (P := fun item =>
             exists ws we, wt_startDate (snd item) = Some ws
                           /\ wt_endDate (snd item) = Some we));
      [ | exact Hall].
    intros item (ws & we & Hs & He). eexists.
    apply (select_contained_defined health_df (snd item) ws we Hs He).
  - intros e. unfold filter_health_export. rewrite Hdir, Hprep. cbn [bind Ok].
    destruct (join_loop health_df [] windows) as [e' | res] eqn:Hloop.
    + cbn. intros H. injection H as <-. right.
      exact (join_loop_failure health_df windows [] e' Hall Hloop).
    + cbn [bind]. destruct res as [| d res]; cbn; intros H; [ | discriminate].
      injection H as <-. left. reflexivity.
Qed.

End Failures.

Lemma window_bounds_come_in_pairs_witness :
  (all_timestamps run1_gpx = []
   /\ Some (mk_datetime 2024 1 1 10 0 0 0 (Some 0)) = None
   /\ Some (mk_datetime 2024 1 1 10 30 0 0 (Some 0)) = None)
  \/ (all_timestamps run1_gpx <> []
      /\ exists a b,
           Some (mk_datetime 2024 1 1 10 0 0 0 (Some 0)) = Some a
           /\ Some (mk_datetime 2024 1 1 10 30 0 0 (Some 0)) = Some b
           /\ tzinfo a = Some 0 /\ tzinfo b = Some 0).
Proof.
  apply (window_bounds_come_in_pairs fromisoformat_seconds run1_gpx).
  vm_compute. reflexivity.
Defined.

Lemma midpoint_contiguity_witness :
  exists block,
    block = filter (fun r => String.eqb (type r) "HeartRate") scenario_partitioned
    /\ mid_dates_of_type scenario_health_df "HeartRate" = Ok block
    /\ Forall2 same_sample (type_subgroup scenario_health_df "HeartRate") block
    /\ (forall r, nth_error block 0 = Some r ->
                  midStartDate r = Some (startDate r))
    /\ (forall i r r',
          nth_error block i = Some r -> nth_error block (S i) = Some r' ->
          midEndDate r = midStartDate r'
          /\ exists m, midEndDate r = Some m
               /\ ns m = ns (startDate r)
                         + (ns (startDate r') - ns (startDate r)) / 2)
    /\ (forall r, In r block ->
          exists a c, midStartDate r = Some a /\ midEndDate r = Some c
                      /\ ns a <= ns c).
Proof.
  apply (midpoint_contiguity scenario_health_df scenario_partitioned "HeartRate").
  - vm_compute. reflexivity.
  - vm_compute. lia.
Defined.

Lemma last_midEndDate_is_own_startDate_witness :
  exists block r,
    block = filter (fun x => String.eqb (type x) "HeartRate") scenario_partitioned
    /\ mid_dates_of_type scenario_health_df "HeartRate" = Ok block
    /\ Forall2 same_sample (type_subgroup scenario_health_df "HeartRate") block
    /\ List.length block
       = List.length (type_subgroup scenario_health_df "HeartRate")
    /\ nth_error block (List.length block - 1) = Some r
    /\ midEndDate r = Some (startDate r).
Proof.
  apply (last_midEndDate_is_own_startDate scenario_health_df
           scenario_partitioned "HeartRate").
  - vm_compute. reflexivity.
  - vm_compute. lia.
Defined.

Lemma own_start_inside_boundaries_witness :
  mid_dates_of_type scenario_health_df "HeartRate"
  = Ok (filter (fun r => String.eqb (type r) "HeartRate") scenario_partitioned)
  /\ List.length
       (filter (fun r => String.eqb (type r) "HeartRate") scenario_partitioned)
     = List.length (type_subgroup scenario_health_df "HeartRate")
  /\ Forall starts_inside
            (filter (fun r => String.eqb (type r) "HeartRate")
                    scenario_partitioned).
Proof.
  apply (own_start_inside_boundaries scenario_health_df scenario_partitioned
           "HeartRate").
  - vm_compute. reflexivity.
  - vm_compute. lia.
Defined.

(** The heart-rate rows of the scenario as the partitioner leaves them. *)
Example scenario_heart_rate_rows :
  map (fun r => (index r, option_map ns (midStartDate r),
                 option_map ns (midEndDate r)))
      (filter (fun r => String.eqb (type r) "HeartRate") scenario_partitioned)
  = [ (1%nat, Some 1704103800000000000, Some 1704104100000000000);
      (2%nat, Some 1704104100000000000, Some 1704104400000000000) ].
Proof. vm_compute. reflexivity. Qed.

Lemma bounded_windows_never_stop_the_join_witness :
  Forall (fun item => exists g,
            select_contained scenario_health_df (snd item) = Ok g)
         [("late.gpx",
           mk_workout_times (Some (mk_datetime 2025 1 1 10 0 0 0 (Some 0)))
                            (Some (mk_datetime 2025 1 1 10 0 0 0 (Some 0))))]
  /\ (forall e,
        filter_health_export to_numeric_int fromisoformat_seconds
          [("late.gpx", late_gpx)] scenario_csv = Raise e ->
        e = ValueError_no_objects_to_concatenate
        \/ exists wid w g,
             In (wid, w)
                [("late.gpx",
                  mk_workout_times
                    (Some (mk_datetime 2025 1 1 10 0 0 0 (Some 0)))
                    (Some (mk_datetime 2025 1 1 10 0 0 0 (Some 0))))]
             /\ select_contained scenario_health_df w = Ok g
             /\ In "VO2Max" (unique (map type g))
             /\ _getMidDates (map (set_workout_date wid) g) = Raise e).
Proof.
  apply (bounded_windows_never_stop_the_join to_numeric_int
           fromisoformat_seconds [("late.gpx", late_gpx)] scenario_csv).
  - vm_compute. reflexivity.
  - vm_compute. reflexivity.
  - repeat constructor. do 2 eexists. split; reflexivity.
Defined.
